(** * CrystalToolkitScene: the React binding of the 3D scene engine

    A shallow embedding of
    [src/components/crystal-toolkit/CrystalToolkitScene/CrystalToolkitScene.tsx].

    The component is a function of its props that registers effects; each
    effect is a sequence of calls on collaborators (the [Scene] object, the
    three.js renderer, the owner's [setProps], the camera bus, the console).
    Every effect body is embedded as a computation in a small state/exception
    monad over a [World] that holds the collaborator state the component can
    observe together with the log of calls made, in order. *)

From Stdlib Require Import Ascii String List Bool Arith NArith ZArith QArith Lia Lqa.
From Stdlib Require Import DecimalString DecimalN.
Import ListNotations.
Local Open Scope string_scope.
Local Open Scope list_scope.

Set Implicit Arguments.

(* ------------------------------------------------------------------ *)
(** ** JavaScript values *)

(** A JavaScript [number].  Finite doubles are kept as the rationals they
    denote, next to the two infinities and NaN.  The component does no
    arithmetic on them except one division by 100, whose result is rounded to
    a double again ([binary64] below). *)
Inductive number : Type :=
| NaN
| Infinity (negative : bool)
| Finite (q : Q).

(** ToBoolean on a number: [0] and [NaN] are falsy. *)
Definition number_truthy (n : number) : bool :=
  match n with
  | NaN => false
  | Infinity _ => true
  | Finite q => negb (Qeq_bool q 0)
  end.

(** The integer nearest to [n / d], for [0 <= n] and [0 < d]; a tie goes to
    the even neighbour. *)
Definition round_half_even (n d : Z) : Z :=
  let q := (n / d)%Z in
  let r := (n mod d)%Z in
  if (2 * r <? d)%Z then q
  else if (d <? 2 * r)%Z then (q + 1)%Z
  else if Z.even q then q else (q + 1)%Z.

(** [floor (log2 (n / d))], for [0 < n] and [0 < d]. *)
Definition floor_log2 (n d : Z) : Z :=
  let e0 := (Z.log2 n - Z.log2 d)%Z in
  if (0 <=? e0)%Z
  then (if (d * 2 ^ e0 <=? n)%Z then e0 else (e0 - 1)%Z)
  else (if (d <=? n * 2 ^ (- e0))%Z then e0 else (e0 - 1)%Z).

(** The IEEE 754 binary64 value nearest to the positive rational [n / d]
    (round to nearest, ties to even): 53 significant bits, the least exponent
    [-1022] with gradual underflow below it, and [None] for an overflow past
    the largest finite double. *)
Definition binary64_magnitude (n d : Z) : option Q :=
  let e := floor_log2 n d in
  let k := (Z.max e (-1022) - 52)%Z in
  if (0 <=? k)%Z then
    let m := round_half_even n (d * 2 ^ k) in
    if (2 ^ 1024 <=? m * 2 ^ k)%Z then None else Some (inject_Z (m * 2 ^ k))
  else
    let m := round_half_even (n * 2 ^ (- k)) d in
    Some (Qred (m # Z.to_pos (2 ^ (- k)))).

(** The double that a real result is rounded to. *)
Definition binary64 (x : Q) : number :=
  match Qnum x with
  | Z0 => Finite 0
  | Zpos n =>
      match binary64_magnitude (Zpos n) (Zpos (Qden x)) with
      | Some v => Finite v
      | None => Infinity false
      end
  | Zneg n =>
      match binary64_magnitude (Zpos n) (Zpos (Qden x)) with
      | Some v => Finite (- v)
      | None => Infinity true
      end
  end.

(** [a / 100] on doubles: the exact quotient rounded to the nearest double. *)
Definition div100 (a : number) : number :=
  match a with
  | NaN => NaN
  | Infinity s => Infinity s
  | Finite q => binary64 (q / 100)
  end.

(** [lo <= a && a <= hi] on numbers, for finite bounds. *)
Definition number_between (lo hi : Q) (a : number) : Prop :=
  match a with
  | Finite q => (lo <= q)%Q /\ (q <= hi)%Q
  | _ => False
  end.

(** ToBoolean on a string: only the empty string is falsy. *)
Definition string_truthy (s : string) : bool :=
  match s with
  | EmptyString => false
  | String _ _ => true
  end.

(** ToBoolean on an optional property: [undefined] is falsy, otherwise the
    value decides. *)
Definition opt_truthy {A : Type} (truthy : A -> bool) (o : option A) : bool :=
  match o with
  | None => false
  | Some a => truthy a
  end.

(** Objects and arrays are always truthy. *)
Definition object_truthy {A : Type} (_ : A) : bool := true.

(** Strict equality [a === b] of two possibly-undefined strings. *)
Definition strict_eq_string (a b : option string) : bool :=
  match a, b with
  | None, None => true
  | Some x, Some y => String.eqb x y
  | _, _ => false
  end.

(** A JavaScript string whose content matters unit by unit is kept as the
    list of its UTF-16 code units. *)
Definition code_units : Type := list N.

Definition alphabet : string :=
  "ABCDEFGHIJKLMNOPQRSTUVWXYZabcdefghijklmnopqrstuvwxyz0123456789+/".

Definition sextet (n : N) : Ascii.ascii :=
  match String.get (N.to_nat n) alphabet with
  | Some c => c
  | None => "="%char
  end.

(** Base64 of a sequence of octets. *)
Fixpoint base64 (bytes : list N) : string :=
  match bytes with
  | [] => EmptyString
  | [a] =>
      String (sextet (a / 4)) (String (sextet (a mod 4 * 16)) "==")
  | [a; b] =>
      String (sextet (a / 4))
        (String (sextet (a mod 4 * 16 + b / 16))
           (String (sextet (b mod 16 * 4)) "="))
  | a :: b :: c :: rest =>
      String (sextet (a / 4))
        (String (sextet (a mod 4 * 16 + b / 16))
           (String (sextet (b mod 16 * 4 + c / 64))
              (String (sextet (c mod 64)) (base64 rest))))
  end%N.

(** Every code unit is at most U+00FF. *)
Definition latin1 (data : code_units) : bool :=
  forallb (fun c => (c <=? 255)%N) data.

(** The browser's [btoa(data)]: each code unit is taken as one octet; a code
    unit above U+00FF makes it throw an [InvalidCharacterError] ([None]). *)
Definition btoa (data : code_units) : option string :=
  if latin1 data then Some (base64 data) else None.

(* ------------------------------------------------------------------ *)
(** ** three.js values and the camera state *)

Module Vector3.
Record t := make { x : number; y : number; z : number }.
(** [new THREE.Vector3(x, y, z)]: every argument defaults to 0. *)
Definition new (x y z : option number) : t :=
  let d := fun (o : option number) (dflt : Q) =>
             match o with Some v => v | None => Finite dflt end in
  make (d x 0) (d y 0) (d z 0).
End Vector3.

Module Quaternion.
Record t := make { x : number; y : number; z : number; w : number }.
(** [new THREE.Quaternion(x, y, z, w)]: defaults are 0, 0, 0, 1. *)
Definition new (x y z w : option number) : t :=
  let d := fun (o : option number) (dflt : Q) =>
             match o with Some v => v | None => Finite dflt end in
  make (d x 0) (d y 0) (d z 0) (d w 1).
End Quaternion.

Module CameraState.
(** interface CameraState: every field is optional. *)
Record t := make {
  quaternion : option Quaternion.t;
  position : option Vector3.t;
  zoom : option number;
  setByComponentId : option string;
  following : option bool
}.
End CameraState.

(** The value of [useContext(CameraContext)] under a provider: an object
    with a [state] and a [dispatch] property, either of which may be
    undefined. *)
Module CameraContext.
Record t := make {
  state : option CameraState.t;
  dispatch : bool                (* cameraContext.dispatch is a function *)
}.
End CameraContext.

(** enum ExportType *)
Module ExportType.
Definition png := "png".
Definition dae := "dae".
Definition usdz := "usdz".
End ExportType.

(** enum AnimationStyle *)
Module AnimationStyle.
Definition PLAY := "play".
Definition SLIDER := "slider".
Definition NONE := "none".
End AnimationStyle.

(** enum JSON3DObject *)
Inductive JSON3DObject :=
| ELLIPSOIDS | CYLINDERS | SPHERES | ARROWS | CUBES
| LINES | SURFACES | CONVEX | LABEL | BEZIER.

Definition ThreePosition : Type := number * number * number.

(** interface SceneJsonObject: the declarative scene document. *)
#[warnings="-register-all"]
Inductive SceneJsonObject : Type := mkSceneJsonObject {
  name : option string;
  contents : option (list SceneJsonObject);
  type : option JSON3DObject;
  clickable : option bool;
  color : option string;
  radius : option number;
  visible : option bool;
  origin : option ThreePosition;
  positions : option (list ThreePosition);
  headLength : option number;
  headWidth : option number;
  tooltip : option string;
  scale : option (list ThreePosition);
  positionPairs : option (list (list ThreePosition));
  keyframes : option (list number);
  animate : option (list (list number));
  node_id : option string
}.

(** A document with only [name] and [contents] set. *)
Definition group (n : option string) (c : option (list SceneJsonObject))
  : SceneJsonObject :=
  mkSceneJsonObject n c None None None None None None None None None None
                    None None None None None.

(** [{ [objectName: string]: boolean }] *)
Definition VisibilityMap : Type := list (string * bool).

Module ImageRequest.
Record t := make { filetype : option string }.
(** the default value [{}] of the prop *)
Definition empty : t := make None.
End ImageRequest.

(** The props of the component ([setProps] and [onObjectClicked] are
    callbacks of the owner: calling them is logged as an event). *)
Module Props.
Record t := make {
  id : option string;
  debug : option bool;
  data : option SceneJsonObject;
  toggleVisibility : option VisibilityMap;
  imageRequest : ImageRequest.t;
  inletSize : option number;
  sceneSize : option number;
  inletPadding : option number;
  axisView : option string;
  animation : option string;
  currentCameraState : option CameraState.t;
  customCameraState : option CameraState.t
}.
End Props.

(* ------------------------------------------------------------------ *)
(** ** Collaborators *)

(** What lies behind the calls the component makes: three.js, the browser
    and the bodies of the [Scene] methods, none of which the component
    defines.  They are taken as an interface. *)
Class Externals := {
  (** the [THREE.Scene] kept in [sceneComponent.scene] *)
  SceneGraph : Type;
  (** the camera owned by the Scene object *)
  Camera : Type;
  (** effect of [Scene.addToScene(sceneJson, bypassRendering)] on the graph *)
  addToScene_graph : SceneJsonObject -> SceneGraph -> SceneGraph;
  (** effect of [Scene.toggleVisibility(namesToVisibility)] on the graph *)
  toggleVisibility_graph : option VisibilityMap -> SceneGraph -> SceneGraph;
  (** effect of [Scene.updateCamera(position, rotation, zoom)] on the camera *)
  updateCamera_camera :
    Vector3.t -> option Quaternion.t -> option number -> Camera -> Camera;
  (** effect of [Scene.updateTime(time)] on the graph *)
  updateTime_graph : number -> SceneGraph -> SceneGraph;
  (** [new ColladaExporter().parse(scene, ...).data] *)
  ColladaExporter_parse : SceneGraph -> code_units;
  (** [canvas.toDataURL('image/png')] of a surface on which the given graph
      was last drawn through the given camera at the given pixel ratio
      ([None]: nothing drawn yet) *)
  canvas_toDataURL : option (SceneGraph * Camera * number) -> string;
  (** what [svgtodatauri] hands to its callback for such a surface *)
  svgtodatauri : option (SceneGraph * Camera * number) -> string;
  (** [DEFAULT_SCENE_SIZE] of [scene/constants] *)
  DEFAULT_SCENE_SIZE : number
}.

Inductive RendererKind := WebGLRenderer | SVGRenderer.

(** Where a camera action is dispatched: the shared [CameraContext] or the
    component's own [useReducer]. *)
Inductive Bus := ContextDispatch | ReducerDispatch.

Module CameraActionPayload.
Record t := make {
  componentId : string;
  position : Vector3.t;
  quaternion : Quaternion.t;
  zoom : option number
}.
End CameraActionPayload.

(** [{ type: CameraReducerAction.NEW_POSITION, payload }] *)
Inductive CameraAction :=
| NEW_POSITION (payload : CameraActionPayload.t).

(** The argument of a [props.setProps] call. *)
Inductive SetPropsArg :=
| ImageData (imageData : string) (imageDataTimestamp : N)
| AllPropsWith_currentCameraState (props : Props.t) (cameraState : CameraState.t).

(** A completion callback the component has handed to the host and that
    has not run yet. *)
Inductive Callback :=
| (** the arrow function given to [setTimeout] in [setPngData] *)
  restorePixelRatio (oldRatio : number)
| (** the [callback] option given to [svgtodatauri] in [setPngData] *)
  svgImageData (imageData : string)
| (** the [onDone] function given to [ColladaExporter.parse] *)
  colladaDone.

(** Calls on collaborators, as they appear in the source. *)
Inductive Event :=
| NewScene (data : option SceneJsonObject) (inletSize inletPadding : option number)
| Subscribe
| Unsubscribe
| OnDestroy
| EnableDebug (debug : option bool)
| ConsoleWarn (msg : string) (data : option SceneJsonObject)
| ConsoleLog (msg : string)
| AddToScene (sceneJson : SceneJsonObject) (bypassRendering : bool)
| ToggleVisibility (namesToVisibility : option VisibilityMap)
| UpdateInsetSettings (inletSize inletPadding : option number)
                      (axisView : option string)
| ResizeRendererToDisplaySize
| SetPixelRatio (ratio : number)
| RenderScene
| ToDataURL (mime : string)
| SvgToDataUrl (mime : string)
| SetTimeout (cb : Callback)
| ColladaParse
| SetProps (arg : SetPropsArg)
| UpdateCamera (position : Vector3.t) (rotation : option Quaternion.t)
               (zoom : option number)
| CameraDispatch (bus : Bus) (action : CameraAction)
| UpdateAnimationStyle (animationStyle : string)
| UpdateTime (time : number).

Section World.

Context {E : Externals}.

(** State of the collaborators of one mounted instance. *)
Record World := mkWorld {
  renderer : RendererKind;       (* sceneComponent.renderer instanceof ... *)
  pixelRatio : number;           (* renderer.getPixelRatio() *)
  scene : SceneGraph;            (* sceneComponent.scene *)
  camera : Camera;
  canvas : option (SceneGraph * Camera * number);  (* renderer.domElement *)
  now : N;                       (* Date.now() *)
  subscribed : bool;             (* the download-event subscription is live *)
  destroyed : bool;              (* Scene.onDestroy has been called *)
  pending : list Callback;       (* completion callbacks not yet run *)
  trace : list Event             (* calls made so far, oldest first *)
}.

Definition set_pixelRatio (r : number) (w : World) : World :=
  mkWorld (renderer w) r (scene w) (camera w) (canvas w) (now w)
          (subscribed w) (destroyed w) (pending w) (trace w).
Definition set_scene (g : SceneGraph) (w : World) : World :=
  mkWorld (renderer w) (pixelRatio w) g (camera w) (canvas w) (now w)
          (subscribed w) (destroyed w) (pending w) (trace w).
Definition set_camera (c : Camera) (w : World) : World :=
  mkWorld (renderer w) (pixelRatio w) (scene w) c (canvas w) (now w)
          (subscribed w) (destroyed w) (pending w) (trace w).
Definition set_canvas (f : option (SceneGraph * Camera * number)) (w : World)
  : World :=
  mkWorld (renderer w) (pixelRatio w) (scene w) (camera w) f (now w)
          (subscribed w) (destroyed w) (pending w) (trace w).
Definition set_subscribed (b : bool) (w : World) : World :=
  mkWorld (renderer w) (pixelRatio w) (scene w) (camera w) (canvas w) (now w)
          b (destroyed w) (pending w) (trace w).
Definition set_destroyed (b : bool) (w : World) : World :=
  mkWorld (renderer w) (pixelRatio w) (scene w) (camera w) (canvas w) (now w)
          (subscribed w) b (pending w) (trace w).
Definition set_pending (l : list Callback) (w : World) : World :=
  mkWorld (renderer w) (pixelRatio w) (scene w) (camera w) (canvas w) (now w)
          (subscribed w) (destroyed w) l (trace w).
Definition set_trace (t : list Event) (w : World) : World :=
  mkWorld (renderer w) (pixelRatio w) (scene w) (camera w) (canvas w) (now w)
          (subscribed w) (destroyed w) (pending w) t.

(** *** The monad: state passing with JavaScript exceptions *)

Inductive Result (A : Type) : Type :=
| Returned (a : A) (w : World)
| Thrown (message : string) (w : World).
Arguments Thrown {A} message w.

Definition M (A : Type) : Type := World -> Result A.

Definition ret {A : Type} (a : A) : M A := fun w => Returned a w.

Definition bind {A B : Type} (m : M A) (k : A -> M B) : M B :=
  fun w => match m w with
           | Returned a w' => k a w'
           | Thrown msg w' => Thrown msg w'
           end.

(** [throw new Error(message)] *)
Definition throw_Error {A : Type} (message : string) : M A :=
  fun w => Thrown message w.

(** A [DOMException] thrown by the browser; what is kept is its [name]. *)
Definition throw_DOMException {A : Type} (name : string) : M A :=
  fun w => Thrown name w.

Definition gets {A : Type} (f : World -> A) : M A := fun w => Returned (f w) w.
Definition modify (f : World -> World) : M unit := fun w => Returned tt (f w).

(** Log one call. *)
Definition call (e : Event) : M unit :=
  modify (fun w => set_trace (trace w ++ [e]) w).

(** The world a computation ends in, whether it returned or threw. *)
Definition world_of {A : Type} (r : Result A) : World :=
  match r with
  | Returned _ w => w
  | Thrown _ w => w
  end.

Definition threw {A : Type} (r : Result A) : option string :=
  match r with
  | Returned _ _ => None
  | Thrown msg _ => Some msg
  end.

End World.

Arguments Thrown {E A} message w.

Declare Scope js_scope.
Delimit Scope js_scope with js.
Notation "x <- c1 ;; c2" := (bind c1 (fun x => c2))
  (at level 61, c1 at next level, right associativity) : js_scope.
Notation "c1 ;; c2" := (bind c1 (fun _ => c2))
  (at level 61, right associativity) : js_scope.

(* ------------------------------------------------------------------ *)
(** ** The component *)

Section Component.

Context {E : Externals}.
Local Open Scope js_scope.

(** *** Calls on the Scene object, the renderer and the host *)

Definition renderer_getPixelRatio : M number := gets pixelRatio.

Definition renderer_setPixelRatio (ratio : number) : M unit :=
  call (SetPixelRatio ratio) ;;
  modify (set_pixelRatio ratio).

(** Modelled from the spec: [Scene.renderScene] is declared in the typings,
    its body is not among the sources.  Following the export pipeline's
    contract ("forces an immediate re-render ... then reads back the rendered
    surface"), a call draws the live graph through the current camera at the
    renderer's current pixel ratio onto the output surface. *)
Definition Scene_renderScene : M unit :=
  call RenderScene ;;
  modify (fun w => set_canvas (Some (scene w, camera w, pixelRatio w)) w).

Definition Scene_addToScene (sceneJson : SceneJsonObject) (bypassRendering : bool)
  : M unit :=
  call (AddToScene sceneJson bypassRendering) ;;
  modify (fun w => set_scene (addToScene_graph sceneJson (scene w)) w).

Definition Scene_toggleVisibility (namesToVisibility : option VisibilityMap)
  : M unit :=
  call (ToggleVisibility namesToVisibility) ;;
  modify (fun w => set_scene (toggleVisibility_graph namesToVisibility (scene w)) w).

Definition Scene_updateCamera (position : Vector3.t)
  (rotation : option Quaternion.t) (zoom : option number) : M unit :=
  call (UpdateCamera position rotation zoom) ;;
  modify (fun w => set_camera (updateCamera_camera position rotation zoom (camera w)) w).

Definition Scene_onDestroy : M unit :=
  call OnDestroy ;;
  modify (set_destroyed true).

Definition domElement_toDataURL (mime : string) : M string :=
  call (ToDataURL mime) ;;
  gets (fun w => canvas_toDataURL (canvas w)).

Definition Date_now : M N := gets now.

Definition props_setProps (arg : SetPropsArg) : M unit := call (SetProps arg).

(** [setTimeout(cb)]: the callback is queued, it does not run now. *)
Definition window_setTimeout (cb : Callback) : M unit :=
  call (SetTimeout cb) ;;
  modify (fun w => set_pending (pending w ++ [cb]) w).

(** [toDataUrl(svg, mime, { callback })] of svgtodatauri: the conversion
    completes later, the callback is queued with the data it will get. *)
Definition toDataUrl (mime : string) : M unit :=
  call (SvgToDataUrl mime) ;;
  modify (fun w => set_pending (pending w ++ [svgImageData (svgtodatauri (canvas w))]) w).

(** Modelled from the spec: [Scene.updateTime] is declared in the typings
    (line 530), its body is not among the sources.  In the slider mode the
    "external caller supplies a normalized time value ... which the engine
    maps to keyframe interpolation": a call hands the time to the engine,
    which moves the keyframed objects of its graph to it. *)
Definition Scene_updateTime (time : number) : M unit :=
  call (UpdateTime time) ;;
  modify (fun w => set_scene (updateTime_graph time (scene w)) w).

(** [btoa(data)] as a call. *)
Definition window_btoa (data : code_units) : M string :=
  match btoa data with
  | Some encoded => ret encoded
  | None => throw_DOMException "InvalidCharacterError"
  end.

(** [new ColladaExporter().parse(scene, onDone, {})]: returns the files and
    queues [onDone]. *)
Definition ColladaExporter_parse_scene : M code_units :=
  call ColladaParse ;;
  modify (fun w => set_pending (pending w ++ [colladaDone]) w) ;;
  gets (fun w => ColladaExporter_parse (scene w)).

(** Modelled from the spec: [subscribe] of [scene/download-event] is not
    among the sources.  It is the subscription to the download bus that
    teardown "must synchronously unsubscribe from": the handler is live from
    [subscribe] until [unsubscribe], or until it throws (see [downloadEvent]). *)
Definition download_subscribe : M unit :=
  call Subscribe ;;
  modify (set_subscribed true).

Definition subscription_unsubscribe : M unit :=
  call Unsubscribe ;;
  modify (set_subscribed false).

(** *** Export handlers *)

(** [setPngData]: lines 196-218. *)
Definition setPngData : M unit :=
  r <- gets renderer ;;
  match r with
  | WebGLRenderer =>
      oldRatio <- renderer_getPixelRatio ;;
      renderer_setPixelRatio (Finite 8) ;;
      Scene_renderScene ;;
      imageData <- domElement_toDataURL "image/png" ;;
      imageDataTimestamp <- Date_now ;;
      props_setProps (ImageData imageData imageDataTimestamp) ;;
      window_setTimeout (restorePixelRatio oldRatio)
  | SVGRenderer =>
      Scene_renderScene ;;
      toDataUrl "image/png"
  end.

(** [setColladaData]: lines 224-236.  Nothing catches what [btoa] throws. *)
Definition setColladaData : M unit :=
  files_data <- ColladaExporter_parse_scene ;;
  encoded <- window_btoa files_data ;;
  let imageData := ("data:text/plain;base64," ++ encoded)%string in
  imageDataTimestamp <- Date_now ;;
  props_setProps (ImageData imageData imageDataTimestamp).

(** [requestImage]: lines 238-250. *)
Definition requestImage (filetype : string) : M unit :=
  if String.eqb filetype ExportType.png then setPngData
  else if String.eqb filetype ExportType.dae then setColladaData
  else throw_Error "Unknown filetype.".

(** The bodies of the three completion callbacks. *)
Definition runCallback (cb : Callback) : M unit :=
  match cb with
  | restorePixelRatio oldRatio =>
      renderer_setPixelRatio oldRatio ;;
      Scene_renderScene
  | svgImageData imageData =>
      imageDataTimestamp <- Date_now ;;
      props_setProps (ImageData imageData imageDataTimestamp)
  | colladaDone =>
      call (ConsoleLog "result")
  end.

(** The host runs the [i]-th queued callback (nothing if there is none). *)
Definition hostRunsCallback (i : nat) : M unit :=
  q <- gets pending ;;
  match nth_error q i with
  | None => ret tt
  | Some cb =>
      modify (set_pending (firstn i q ++ skipn (S i) q)) ;;
      runCallback cb
  end.

(** Modelled from the spec: the download bus emits [{ filetype }].  The
    handler registered at mount (line 280),
    [({ filetype }) => requestImage(filetype, _s)], runs if the subscription
    is live.  The error of a handler that throws is not caught by the
    component: the bus ends the subscription of that handler, so that later
    events reach nothing, and the error surfaces in the host. *)
Definition downloadEvent (filetype : string) : M unit :=
  live <- gets subscribed ;;
  if live then
    fun w => match requestImage filetype w with
             | Returned a w' => Returned a w'
             | Thrown msg w' => Thrown msg (set_subscribed false w')
             end
  else ret tt.

(** *** Camera plumbing: lines 331-334 *)

(** The values the hooks give to one render: the context value, if the
    component is wrapped in a [CameraContextProvider], and the state of the
    component's own reducer ([useReducer] always gives a dispatch function). *)
Record Hooks := mkHooks {
  cameraContext : option CameraContext.t;
  cameraReducerState : option CameraState.t
}.

(** [cameraContext ? cameraContext.state : cameraReducerState] *)
Definition cameraState (h : Hooks) : option CameraState.t :=
  match cameraContext h with
  | Some ctx => CameraContext.state ctx
  | None => cameraReducerState h
  end.

(** [cameraContext ? cameraContext.dispatch : cameraReducerDispatch]; [None]
    is a falsy value. *)
Definition cameraDispatch (h : Hooks) : option Bus :=
  match cameraContext h with
  | Some ctx => if CameraContext.dispatch ctx then Some ContextDispatch else None
  | None => Some ReducerDispatch
  end.

(** The dispatch function handed to the Scene constructor (lines 266-277):
    the Scene calls it on every user-driven camera change.  It closes over
    the [cameraDispatch] of the render it was created in, the first one. *)
Definition sceneDispatch (componentId : string) (h : Hooks)
  (position : Vector3.t) (quaternion : Quaternion.t) (zoom : number) : M unit :=
  match cameraDispatch h with
  | Some bus =>
      call (CameraDispatch bus
              (NEW_POSITION
                 (CameraActionPayload.make componentId position quaternion (Some zoom))))
  | None => ret tt
  end.

(** *** The effects, in source order *)

(** Lines 253-286, deps [[]]: body. *)
Definition mountEffect (props : Props.t) : M unit :=
  call (NewScene (Props.data props) (Props.inletSize props) (Props.inletPadding props)) ;;
  download_subscribe.

(** Lines 281-285: the clean up function of the mount effect. *)
Definition mountCleanup : M unit :=
  subscription_unsubscribe ;;
  Scene_onDestroy.

(** Line 289, deps [[props.debug]]. *)
Definition debugEffect (props : Props.t) : M unit :=
  call (EnableDebug (Props.debug props)).

(** [!props.data || !props.data.name || !props.data.contents] *)
Definition no_data (data : option SceneJsonObject) : bool :=
  match data with
  | None => true
  | Some d =>
      negb (opt_truthy string_truthy (name d))
      || negb (opt_truthy object_truthy (contents d))
  end.

(** Lines 295-307, deps [[props.data]]. *)
Definition dataEffect (props : Props.t) : M unit :=
  if no_data (Props.data props) then
    call (ConsoleWarn
            "no data passed ( or missing name /content ), scene will not be updated"
            (Props.data props))
  else
    match Props.data props with
    | Some d => Scene_addToScene d true
    | None => ret tt
    end ;;
    Scene_toggleVisibility (Props.toggleVisibility props).

(** Lines 308-310, deps [[props.toggleVisibility]]. *)
Definition toggleVisibilityEffect (props : Props.t) : M unit :=
  Scene_toggleVisibility (Props.toggleVisibility props).

(** Lines 311-314, deps [[inletSize, inletPadding, axisView]]. *)
Definition insetEffect (props : Props.t) : M unit :=
  call (UpdateInsetSettings (Props.inletSize props) (Props.inletPadding props)
                            (Props.axisView props)).

(** Lines 316-318, deps [[props.sceneSize]]. *)
Definition resizeEffect : M unit := call ResizeRendererToDisplaySize.

(** Lines 320-325, deps [[props.imageRequest]]. *)
Definition imageRequestEffect (props : Props.t) : M unit :=
  match ImageRequest.filetype (Props.imageRequest props) with
  | Some filetype =>
      if string_truthy filetype then requestImage filetype else ret tt
  | None => ret tt
  end.

(** The test of lines 340-344 on a present camera state. *)
Definition camera_applies (componentId : string) (cs : CameraState.t) : bool :=
  negb (strict_eq_string (CameraState.setByComponentId cs) (Some componentId))
  && opt_truthy object_truthy (CameraState.position cs)
  && opt_truthy object_truthy (CameraState.quaternion cs)
  && opt_truthy number_truthy (CameraState.zoom cs).

(** Lines 335-349, deps [[cameraState.position]]; registered only if
    [cameraState] is truthy. *)
Definition cameraEffect (componentId : string) (props : Props.t) (h : Hooks)
  : M unit :=
  match cameraState h with
  | None => ret tt
  | Some cs =>
      props_setProps (AllPropsWith_currentCameraState props cs) ;;
      if camera_applies componentId cs then
        match CameraState.position cs with
        | Some position =>
            Scene_updateCamera position (CameraState.quaternion cs)
                               (CameraState.zoom cs)
        | None => ret tt
        end
      else ret tt
  end.

(** Lines 356-380, deps [[props.customCameraState]]. *)
Definition customCameraEffect (componentId : string) (props : Props.t) (h : Hooks)
  : M unit :=
  match Props.customCameraState props with
  | Some custom =>
      let p := CameraState.position custom in
      let q := CameraState.quaternion custom in
      let zoom := CameraState.zoom custom in
      let quaternion :=
        Quaternion.new (option_map Quaternion.x q) (option_map Quaternion.y q)
                       (option_map Quaternion.z q) (option_map Quaternion.w q) in
      let position :=
        Vector3.new (option_map Vector3.x p) (option_map Vector3.y p)
                    (option_map Vector3.z p) in
      Scene_updateCamera position (Some quaternion) zoom ;;
      match cameraDispatch h with
      | Some bus =>
          call (CameraDispatch bus
                  (NEW_POSITION
                     (CameraActionPayload.make componentId position quaternion zoom)))
      | None => ret tt
      end
  | None => ret tt
  end ;;
  call (ConsoleLog "new props").

(** Lines 382-384, deps [[props.animation]]. *)
Definition animationEffect (props : Props.t) : M unit :=
  match Props.animation props with
  | Some a =>
      if string_truthy a then call (UpdateAnimationStyle a) else ret tt
  | None => ret tt
  end.

(** *** Commit: which effects run *)

(** Which dependency arrays differ from the previous render. *)
Record Changed := mkChanged {
  debug_changed : bool;
  data_changed : bool;
  toggleVisibility_changed : bool;
  inset_changed : bool;
  sceneSize_changed : bool;
  imageRequest_changed : bool;
  cameraPosition_changed : bool;
  customCameraState_changed : bool;
  animation_changed : bool
}.

Definition when (b : bool) (m : M unit) : M unit := if b then m else ret tt.

(** At unmount the clean up of the mount effect runs (no other effect
    returns one). *)
Definition unmount : M unit := mountCleanup.

(** The effects whose dependencies changed, in the order of the [useEffect]
    calls.  An effect that throws ends the sequence. *)
Definition effects (componentId : string) (props : Props.t) (h : Hooks)
  (ch : Changed) : M unit :=
  when (debug_changed ch) (debugEffect props) ;;
  when (data_changed ch) (dataEffect props) ;;
  when (toggleVisibility_changed ch) (toggleVisibilityEffect props) ;;
  when (inset_changed ch) (insetEffect props) ;;
  when (sceneSize_changed ch) resizeEffect ;;
  when (imageRequest_changed ch) (imageRequestEffect props) ;;
  when (cameraPosition_changed ch) (cameraEffect componentId props h) ;;
  when (customCameraState_changed ch) (customCameraEffect componentId props h) ;;
  when (animation_changed ch) (animationEffect props).

(** What React does with an error thrown by an effect: the component has no
    error boundary of its own, the instance is unmounted, which runs the
    clean up of its mount effect, and the error surfaces. *)
Definition unmountOnError (m : M unit) : M unit :=
  fun w => match m w with
           | Returned a w' => Returned a w'
           | Thrown msg w' => Thrown msg (world_of (unmount w'))
           end.

(** After a render React runs the effects whose dependencies changed. *)
Definition update (componentId : string) (props : Props.t) (h : Hooks)
  (ch : Changed) : M unit :=
  unmountOnError (effects componentId props h ch).

(** At mount every effect runs, the mount effect first. *)
Definition mount (componentId : string) (props : Props.t) (h : Hooks) : M unit :=
  mountEffect props ;;
  update componentId props h
         (mkChanged true true true true true true true true true).

(** [Object.is] on the dependency [cameraState.position] of line 348 between
    two renders: two absent positions are the same value, two present ones
    only if they are the same object. *)
Definition cameraPosition_dep_changed (same_object : bool)
  (previous next : option Vector3.t) : bool :=
  match previous, next with
  | None, None => false
  | Some _, Some _ => negb same_object
  | _, _ => true
  end.

(** The commit of the render that the bus causes by replacing the camera
    state [previous] with the one [h] holds: of the dependency arrays only
    [[cameraState.position]] can differ in a way that matters (an
    imageRequest left to its default [{}] is a new object at every render,
    but then the effect of lines 320-325 finds no filetype and does
    nothing).  Without a camera state the effect is not registered
    (line 335). *)
Definition cameraStateReceived (componentId : string) (props : Props.t)
  (previous : CameraState.t) (same_object : bool) (h : Hooks) : M unit :=
  update componentId props h
    (mkChanged false false false false false false
       (match cameraState h with
        | Some next =>
            cameraPosition_dep_changed same_object
              (CameraState.position previous) (CameraState.position next)
        | None => false
        end)
       false false).

(** *** Render output: lines 386-411 *)

(** [getSceneSize] *)
Definition getSceneSize (sceneSize : option number) : number :=
  if opt_truthy number_truthy sceneSize then
    match sceneSize with Some s => s | None => DEFAULT_SCENE_SIZE end
  else DEFAULT_SCENE_SIZE.

Inductive Element :=
| MountNode (id : option string) (size : number)
| DebugNode
| SimpleSlider.

Definition render (props : Props.t) : list Element :=
  let size := getSceneSize (Props.sceneSize props) in
  [MountNode (Props.id props) size]
  ++ (if opt_truthy (fun b : bool => b) (Props.debug props) then [DebugNode] else [])
  ++ (if strict_eq_string (Props.animation props) (Some AnimationStyle.SLIDER)
      then [SimpleSlider] else []).

(** The [onUpdate] prop given to the slider: [(a) => scene.updateTime(a / 100)]. *)
Definition SimpleSlider_onUpdate (a : number) : M unit :=
  Scene_updateTime (div100 a).

End Component.

(* ------------------------------------------------------------------ *)
(** ** Component identity: lines 48 and 186 *)

Module Identity.

Local Open Scope N_scope.

(** [++ID_GENERATOR] on a JavaScript number holding an integer: exact below
    2^53; at 2^53 adding one rounds back to 2^53. *)
Definition pre_increment (g : N) : N :=
  if g <? 2 ^ 53 then g + 1 else g.

(** [n.toString()] for such an integer: its decimal digits. *)
Definition toString (n : N) : string :=
  NilZero.string_of_uint (N.to_uint n).

(** [useRef(initialValue).current]: the initial value is kept at the first
    render only; later renders return what the ref holds. *)
Definition useRef {A : Type} (held : option A) (initialValue : A) : A :=
  match held with
  | Some current => current
  | None => initialValue
  end.

(** One evaluation of line 186,
    [const componentId = useRef((++ID_GENERATOR).toString())]:
    the argument is evaluated at every render. *)
Definition render_componentId (held : option string) (g : N) : string * N :=
  let g' := pre_increment g in
  (useRef held (toString g'), g').

(** The module-global counter and the [componentId] refs of the instances
    mounted so far, in mount order. *)
Record Process := mkProcess {
  ID_GENERATOR : N;
  instances : list string
}.

(** [let ID_GENERATOR = 0] *)
Definition initial : Process := mkProcess 0 [].

Inductive Action :=
| Mount                 (* a new instance renders for the first time *)
| Rerender (i : nat).   (* the i-th mounted instance renders again *)

Fixpoint set_nth {A : Type} (i : nat) (a : A) (l : list A) : list A :=
  match l, i with
  | [], _ => []
  | _ :: t, O => a :: t
  | h :: t, S j => h :: set_nth j a t
  end.

Definition step (p : Process) (a : Action) : Process :=
  match a with
  | Mount =>
      let (cid, g) := render_componentId None (ID_GENERATOR p) in
      mkProcess g (instances p ++ [cid])
  | Rerender i =>
      match nth_error (instances p) i with
      | Some held =>
          let (cid, g) := render_componentId (Some held) (ID_GENERATOR p) in
          mkProcess g (set_nth i cid (instances p))
      | None => p
      end
  end.

Definition run_from (p : Process) (acts : list Action) : Process :=
  fold_left step acts p.

Definition run (acts : list Action) : Process := run_from initial acts.

(** How many instances a run mounts. *)
Definition mounts (acts : list Action) : nat :=
  length (filter (fun a => match a with Mount => true | _ => false end) acts).

End Identity.

(* ------------------------------------------------------------------ *)
(** ** A concrete set of collaborators

    Used to run the component on explicit inputs: the graph remembers the
    document it was built from, the visibility map last applied and the
    animation time last set, the camera remembers the last programmatic
    update, and the exporters print a fixed rendering. *)

Module Demo.

Local Open Scope N_scope.

(** The UTF-16 code units of a string given by its UTF-8 bytes. *)
Fixpoint utf16_of_bytes (fuel : nat) (bytes : list N) : code_units :=
  match fuel with
  | O => []
  | S fuel =>
      match bytes with
      | [] => []
      | b1 :: rest =>
          if b1 <? 192 then b1 :: utf16_of_bytes fuel rest
          else if b1 <? 224 then
            match rest with
            | b2 :: rest => (b1 mod 32 * 64 + b2 mod 64) :: utf16_of_bytes fuel rest
            | _ => [65533]
            end
          else if b1 <? 240 then
            match rest with
            | b2 :: b3 :: rest =>
                (b1 mod 16 * 4096 + b2 mod 64 * 64 + b3 mod 64)
                :: utf16_of_bytes fuel rest
            | _ => [65533]
            end
          else
            match rest with
            | b2 :: b3 :: b4 :: rest =>
                let cp := b1 mod 8 * 262144 + b2 mod 64 * 4096
                          + b3 mod 64 * 64 + b4 mod 64 - 65536 in
                (55296 + cp / 1024) :: (56320 + cp mod 1024)
                :: utf16_of_bytes fuel rest
            | _ => [65533]
            end
      end
  end.

Definition utf16 (s : string) : code_units :=
  let bytes := map Ascii.N_of_ascii (list_ascii_of_string s) in
  utf16_of_bytes (length bytes) bytes.

Record Graph := mkGraph {
  document : option SceneJsonObject;
  visibility : option VisibilityMap;
  time : option number
}.
Definition Cam : Type := option (Vector3.t * option Quaternion.t * option number).

Definition serialize (g : Graph) : string :=
  match document g with
  | Some d =>
      match name d with
      | Some n => ("<COLLADA name='" ++ n ++ "'/>")%string
      | None => "<COLLADA/>"
      end
  | None => "<COLLADA/>"
  end.

#[export] Instance externals : Externals := {|
  SceneGraph := Graph;
  Camera := Cam;
  addToScene_graph := fun d g => mkGraph (Some d) (visibility g) (time g);
  toggleVisibility_graph := fun m g => mkGraph (document g) m (time g);
  updateCamera_camera := fun p q z _ => Some (p, q, z);
  updateTime_graph := fun t g => mkGraph (document g) (visibility g) (Some t);
  ColladaExporter_parse := fun g => utf16 (serialize g);
  canvas_toDataURL := fun f =>
    match f with
    | Some _ => "data:image/png;base64,iVBORw0KGgo="
    | None => "data:,"
    end;
  svgtodatauri := fun f =>
    match f with
    | Some _ => "data:image/png;base64,iVBORw0KGgo="
    | None => "data:,"
    end;
  DEFAULT_SCENE_SIZE := Finite 500
|}.

(** A freshly constructed WebGL scene at pixel ratio 2, nothing drawn. *)
Definition world0 : World :=
  mkWorld WebGLRenderer (Finite 2) (mkGraph None None None) None None
          1700000000000%N false false [] [].

(** The same with the SVG renderer. *)
Definition world0_svg : World :=
  mkWorld SVGRenderer (Finite 1) (mkGraph None None None) None None
          1700000000000%N false false [] [].

Definition props0 : Props.t :=
  Props.make None None None None ImageRequest.empty None None None None None
             None None.

Definition with_data (d : option SceneJsonObject) (p : Props.t) : Props.t :=
  Props.make (Props.id p) (Props.debug p) d (Props.toggleVisibility p)
             (Props.imageRequest p) (Props.inletSize p) (Props.sceneSize p)
             (Props.inletPadding p) (Props.axisView p) (Props.animation p)
             (Props.currentCameraState p) (Props.customCameraState p).

Definition with_imageRequest (r : ImageRequest.t) (p : Props.t) : Props.t :=
  Props.make (Props.id p) (Props.debug p) (Props.data p) (Props.toggleVisibility p)
             r (Props.inletSize p) (Props.sceneSize p)
             (Props.inletPadding p) (Props.axisView p) (Props.animation p)
             (Props.currentCameraState p) (Props.customCameraState p).

Definition with_animation (a : option string) (p : Props.t) : Props.t :=
  Props.make (Props.id p) (Props.debug p) (Props.data p) (Props.toggleVisibility p)
             (Props.imageRequest p) (Props.inletSize p) (Props.sceneSize p)
             (Props.inletPadding p) (Props.axisView p) a
             (Props.currentCameraState p) (Props.customCameraState p).

Definition with_customCameraState (c : option CameraState.t) (p : Props.t)
  : Props.t :=
  Props.make (Props.id p) (Props.debug p) (Props.data p) (Props.toggleVisibility p)
             (Props.imageRequest p) (Props.inletSize p) (Props.sceneSize p)
             (Props.inletPadding p) (Props.axisView p) (Props.animation p)
             (Props.currentCameraState p) c.


End Demo.

(* ------------------------------------------------------------------ *)
(** ** Observations on runs *)

Section Observations.

Context {E : Externals}.

(** The world [w] with the calls [es] appended to its log. *)
Definition log (es : list Event) (w : World) : World :=
  set_trace (trace w ++ es) w.

(** The calls a computation makes when started in [w]. *)
Definition new_events {A : Type} (m : M A) (w : World) : list Event :=
  skipn (length (trace w)) (trace (world_of (m w))).

(** How many of the calls are [Scene.updateCamera]. *)
Definition updateCamera_calls (es : list Event) : nat :=
  length (filter (fun e => match e with UpdateCamera _ _ _ => true | _ => false end) es).

(** The pending queue without its [i]-th entry. *)
Definition without (i : nat) (q : list Callback) : list Callback :=
  firstn i q ++ skipn (S i) q.

(** The vector and quaternion built from a custom camera state. *)
Definition custom_position (custom : CameraState.t) : Vector3.t :=
  let p := CameraState.position custom in
  Vector3.new (option_map Vector3.x p) (option_map Vector3.y p)
              (option_map Vector3.z p).

Definition custom_quaternion (custom : CameraState.t) : Quaternion.t :=
  let q := CameraState.quaternion custom in
  Quaternion.new (option_map Quaternion.x q) (option_map Quaternion.y q)
                 (option_map Quaternion.z q) (option_map Quaternion.w q).

End Observations.

(** Only the [customCameraState] dependency changed. *)
Definition only_customCameraState : Changed :=
  mkChanged false false false false false false false true false.

(** Only the [cameraState.position] dependency changed. *)
Definition only_cameraPosition : Changed :=
  mkChanged false false false false false false true false false.

(** Only the [data] dependency changed. *)
Definition only_data : Changed :=
  mkChanged false true false false false false false false false.

(** Only the [imageRequest] dependency changed. *)
Definition only_imageRequest : Changed :=
  mkChanged false false false false false true false false false.

Section CallFrames.

Context {E : Externals}.

(** A computation [m] stays within [P]: started anywhere, it only appends
    calls to the log, every call it appends satisfies [P], and it throws only
    if [may_throw] allows it. *)
Definition within {A : Type} (P : Event -> bool) (may_throw : bool) (m : M A)
  : Prop :=
  forall w, exists es,
    trace (world_of (m w)) = trace w ++ es
    /\ forallb P es = true
    /\ (may_throw = false -> threw (m w) = None).

End CallFrames.

(** The dependency whose change can make a commit issue the call [e]. *)
Definition call_origin (ch : Changed) (e : Event) : bool :=
  match e with
  | EnableDebug _ => debug_changed ch
  | ConsoleWarn _ _ | AddToScene _ _ => data_changed ch
  | ToggleVisibility _ => data_changed ch || toggleVisibility_changed ch
  | UpdateInsetSettings _ _ _ => inset_changed ch
  | ResizeRendererToDisplaySize => sceneSize_changed ch
  | SetPixelRatio _ | RenderScene | ToDataURL _ | SvgToDataUrl _
  | SetTimeout _ | ColladaParse => imageRequest_changed ch
  | SetProps (ImageData _ _) => imageRequest_changed ch
  | SetProps (AllPropsWith_currentCameraState _ _) => cameraPosition_changed ch
  | UpdateCamera _ _ _ =>
      cameraPosition_changed ch || customCameraState_changed ch
  | CameraDispatch _ _ | ConsoleLog _ => customCameraState_changed ch
  | UpdateAnimationStyle _ => animation_changed ch
  | Unsubscribe | OnDestroy => imageRequest_changed ch
  | NewScene _ _ _ | Subscribe | UpdateTime _ => false
  end.

(** The calls of the life cycle of the Scene object. *)
Definition lifecycle_call (e : Event) : bool :=
  match e with
  | NewScene _ _ _ | Subscribe | Unsubscribe | OnDestroy => true
  | _ => false
  end.

(** The calls the body of an effect can make in a commit: owed to a
    dependency that changed, and no life cycle call. *)
Definition effect_call (ch : Changed) (e : Event) : bool :=
  call_origin ch e && negb (lifecycle_call e).

(** The calls of the export pipeline. *)
Definition export_call (e : Event) : bool :=
  match e with
  | SetPixelRatio _ | RenderScene | ToDataURL _ | SvgToDataUrl _
  | SetTimeout _ | ColladaParse | SetProps (ImageData _ _) => true
  | _ => false
  end.

(** The calls a completion callback may make. *)
Definition callback_call (e : Event) : bool :=
  match e with
  | SetPixelRatio _ | RenderScene | SetProps (ImageData _ _) | ConsoleLog _ => true
  | _ => false
  end.

(** The calls that go through the three.js renderer. *)
Definition renderer_call (e : Event) : bool :=
  match e with
  | SetPixelRatio _ | RenderScene | ToDataURL _ => true
  | _ => false
  end.

Definition bus_eqb (a b : Bus) : bool :=
  match a, b with
  | ContextDispatch, ContextDispatch | ReducerDispatch, ReducerDispatch => true
  | _, _ => false
  end.

(** A call that is no dispatch, or a dispatch whose payload carries
    [componentId] and that goes to the context's dispatch function if the
    render has a context value (which then has one), to the reducer of the
    component otherwise. *)
Definition stamped (componentId : string) (h : Hooks) (e : Event) : bool :=
  match e with
  | CameraDispatch bus (NEW_POSITION payload) =>
      String.eqb (CameraActionPayload.componentId payload) componentId
      && match cameraContext h with
         | Some ctx => CameraContext.dispatch ctx && bus_eqb bus ContextDispatch
         | None => bus_eqb bus ReducerDispatch
         end
  | _ => true
  end.

(* ------------------------------------------------------------------ *)
(** ** MaterialsInput: periodic table visibility and submit

    The part of [MaterialsInput.tsx] that decides when the periodic table is
    shown and what a submit does.  The state is the component's [useState]
    and [useRef] values these handlers read or write; each handler is a
    transition on it that also returns the calls it makes.  The input value,
    the error and the autocomplete flag are written by [MaterialsInputBox]
    through the setters it is given ([setValue], [setError],
    [setShowAutocomplete]); the input value is also written directly by the
    formula buttons, by the conversion to another input type and by the
    effect on [props.value]. *)

Module MaterialsInput.

(** enum PeriodicTableMode *)
Inductive PeriodicTableMode := TOGGLE | FOCUS | NONE.

Definition mode_eqb (a b : PeriodicTableMode) : bool :=
  match a, b with
  | TOGGLE, TOGGLE | FOCUS, FOCUS | NONE, NONE => true
  | _, _ => false
  end.

(** [props.periodicTableMode === m], the prop being optional. *)
Definition mode_is (p : option PeriodicTableMode) (m : PeriodicTableMode) : bool :=
  match p with
  | Some a => mode_eqb a m
  | None => false
  end.

Record Props := mkProps {
  periodicTableMode : option PeriodicTableMode;
  hidePeriodicTable : option bool;
  has_setProps : bool;      (* props.setProps is given *)
  has_onSubmit : bool       (* props.onSubmit is given *)
}.

Record State := mkState {
  inputValue : string;
  error : option string;            (* string | null *)
  showAutocomplete : bool;
  errorTipStayActive : bool;
  submitButtonClicks : N;
  periodicTableClicked : bool;      (* the ref *)
  showPeriodicTable : bool;
  isFocused : bool
}.

(** Calls the handlers make on the event and on the owner:
    [props.onSubmit(e, value)] gets the event of a submit, or [null]. *)
Inductive Call :=
| preventDefault
| stopPropagation
| onSubmit (with_event : bool) (value : string)
| target_focus
| setTimeout_target_focus.

(** What the user, the child input or the browser does. *)
Inductive Action :=
| InputFocus
| InputBlur (relatedTarget_className : option string)
| InputKeyDown (keyCode : N)
| ToggleButtonClick
| TableMouseDown
| Submit (value : option string)
| ErrorMouseOver
| SetValue (e : string)                (* the child calls [setValue] *)
| SetError (error : option string)     (* the child calls [setError] *)
| SetShowAutocomplete (show : bool)    (* the child calls [setShowAutocomplete] *)
| SetInputValue (value : string).      (* a direct [setInputValue] *)

(** The initial values of the [useState] calls. *)
Definition initialState (props : Props) (value : string) : State :=
  mkState value None false false 0 false
          (mode_is (periodicTableMode props) TOGGLE
           && negb (opt_truthy (fun b : bool => b) (hidePeriodicTable props)))
          false.

(** [getOnFocusProp] *)
Definition getOnFocusProp (props : Props) (s : State) : State :=
  mkState (inputValue s) (error s) (showAutocomplete s) false
          (submitButtonClicks s) (periodicTableClicked s)
          (if mode_is (periodicTableMode props) FOCUS then true
           else showPeriodicTable s)
          true.

(** [className.indexOf('mat-element') > -1] *)
Definition has_mat_element (className : string) : bool :=
  match String.index 0 "mat-element" className with
  | Some _ => true
  | None => false
  end.

(** [getOnBlurProp] *)
Definition getOnBlurProp (props : Props) (relatedTarget : option string)
  (s : State) : State * list Call :=
  let blurred :=
    mkState (inputValue s) (error s) (showAutocomplete s) (errorTipStayActive s)
            (submitButtonClicks s) (periodicTableClicked s)
            (showPeriodicTable s) false in
  if negb (mode_is (periodicTableMode props) FOCUS) then (blurred, [])
  else if negb (periodicTableClicked s) then
    (mkState (inputValue s) (error s) (showAutocomplete s) (errorTipStayActive s)
             (submitButtonClicks s) false false false, [])
  else
    (mkState (inputValue s) (error s) (showAutocomplete s) (errorTipStayActive s)
             (submitButtonClicks s) false (showPeriodicTable s) false,
     if opt_truthy has_mat_element relatedTarget then [target_focus]
     else [setTimeout_target_focus]).

(** [getOnKeyDownProp] *)
Definition getOnKeyDownProp (props : Props) (keyCode : N) (s : State) : State :=
  if N.eqb keyCode 9 && mode_is (periodicTableMode props) FOCUS then
    mkState (inputValue s) (error s) (showAutocomplete s) (errorTipStayActive s)
            (submitButtonClicks s) (periodicTableClicked s) false (isFocused s)
  else s.

(** [!error]: [null] and the empty string are falsy. *)
Definition no_error (s : State) : bool :=
  negb (opt_truthy string_truthy (error s)).

(** [handleSubmit]; [submitButtonClicks + 1] is an addition on a JavaScript
    number, as [++ID_GENERATOR] is. *)
Definition handleSubmit (props : Props) (value : option string) (s : State)
  : State * list Call :=
  if no_error s then
    (mkState (inputValue s) (error s) false (errorTipStayActive s)
             (if has_setProps props
              then Identity.pre_increment (submitButtonClicks s)
              else submitButtonClicks s)
             (periodicTableClicked s) false (isFocused s),
     [preventDefault; stopPropagation]
     ++ (if has_onSubmit props then
           [onSubmit true
                     (if opt_truthy string_truthy value
                      then match value with Some v => v | None => inputValue s end
                      else inputValue s)]
         else []))
  else
    (mkState (inputValue s) (error s) (showAutocomplete s) true
             (submitButtonClicks s) (periodicTableClicked s)
             (showPeriodicTable s) (isFocused s),
     [preventDefault; stopPropagation]).

(** [handleSetValue] (lines 535-538), given to the child as [setValue]: the
    value is stored and handed to [props.onSubmit] with a [null] event,
    whatever the error state; the click counter is not touched.  (The
    function is memoized with no dependency and uses the props of the first
    render; the props are fixed over a run here.) *)
Definition handleSetValue (props : Props) (e : string) (s : State)
  : State * list Call :=
  (mkState e (error s) (showAutocomplete s) (errorTipStayActive s)
           (submitButtonClicks s) (periodicTableClicked s)
           (showPeriodicTable s) (isFocused s),
   if has_onSubmit props then [onSubmit false e] else []).

(** One action: the handler bound to it in the render output, if the
    element carrying the handler is rendered at all. *)
Definition step (props : Props) (s : State) (a : Action) : State * list Call :=
  match a with
  | InputFocus => (getOnFocusProp props s, [])
  | InputBlur relatedTarget => getOnBlurProp props relatedTarget s
  | InputKeyDown keyCode => (getOnKeyDownProp props keyCode s, [])
  | ToggleButtonClick =>
      (* the button exists only if periodicTableMode === TOGGLE *)
      if mode_is (periodicTableMode props) TOGGLE then
        (mkState (inputValue s) (error s) (showAutocomplete s)
                 (errorTipStayActive s) (submitButtonClicks s)
                 (periodicTableClicked s) (negb (showPeriodicTable s))
                 (isFocused s), [])
      else (s, [])
  | TableMouseDown =>
      (* the table exists only if periodicTableMode !== NONE *)
      if negb (mode_is (periodicTableMode props) NONE) then
        (mkState (inputValue s) (error s) (showAutocomplete s)
                 (errorTipStayActive s) (submitButtonClicks s) true
                 (showPeriodicTable s) (isFocused s), [])
      else (s, [])
  | Submit value => handleSubmit props value s
  | ErrorMouseOver =>
      (* the error button exists only if error is truthy *)
      if no_error s then (s, [])
      else
        (mkState (inputValue s) (error s) (showAutocomplete s) false
                 (submitButtonClicks s) (periodicTableClicked s)
                 (showPeriodicTable s) (isFocused s), [])
  | SetValue e => handleSetValue props e s
  | SetError e =>
      (mkState (inputValue s) e (showAutocomplete s) (errorTipStayActive s)
               (submitButtonClicks s) (periodicTableClicked s)
               (showPeriodicTable s) (isFocused s), [])
  | SetShowAutocomplete a =>
      (mkState (inputValue s) (error s) a (errorTipStayActive s)
               (submitButtonClicks s) (periodicTableClicked s)
               (showPeriodicTable s) (isFocused s), [])
  | SetInputValue v =>
      (mkState v (error s) (showAutocomplete s) (errorTipStayActive s)
               (submitButtonClicks s) (periodicTableClicked s)
               (showPeriodicTable s) (isFocused s), [])
  end.

(** A sequence of actions from a state: the state reached and the calls
    made, in order. *)
Fixpoint run_from (props : Props) (s : State) (acts : list Action)
  : State * list Call :=
  match acts with
  | [] => (s, [])
  | a :: rest =>
      let (s1, c1) := step props s a in
      let (s2, c2) := run_from props s1 rest in
      (s2, c1 ++ c2)
  end.

Definition run (props : Props) (value : string) (acts : list Action)
  : State * list Call :=
  run_from props (initialState props value) acts.

(** enum MaterialsInputType *)
Inductive MaterialsInputType :=
| ELEMENTS | CHEMICAL_SYSTEM | FORMULA | MPID | SMILES | TEXT.

Definition type_eqb (a b : MaterialsInputType) : bool :=
  match a, b with
  | ELEMENTS, ELEMENTS | CHEMICAL_SYSTEM, CHEMICAL_SYSTEM | FORMULA, FORMULA
  | MPID, MPID | SMILES, SMILES | TEXT, TEXT => true
  | _, _ => false
  end.

(** [elementTypes.indexOf(t) > -1] with
    [elementTypes = [ELEMENTS, CHEMICAL_SYSTEM]] *)
Definition is_element_type (t : MaterialsInputType) : bool :=
  existsb (type_eqb t) [ELEMENTS; CHEMICAL_SYSTEM].

(** [props.showTypeDropdown && hasDynamicInputType] *)
Definition showTypeDropdown (showTypeDropdown_prop : option bool)
  (allowedInputTypes : list MaterialsInputType) : bool :=
  opt_truthy (fun b : bool => b) showTypeDropdown_prop
  && Nat.ltb 1 (length allowedInputTypes).

(** The test that sets [dropdownOnlyElementsOrChemSys]. *)
Definition dropdownOnlyElementsOrChemSys (showTypeDropdown_prop : option bool)
  (allowedInputTypes : list MaterialsInputType) : bool :=
  showTypeDropdown showTypeDropdown_prop allowedInputTypes
  && Nat.eqb (length allowedInputTypes) 2
  && forallb is_element_type allowedInputTypes
  && match allowedInputTypes with
     | [] => false                      (* undefined !== undefined *)
     | [_] => true                      (* a !== undefined *)
     | a :: b :: _ => negb (type_eqb a b)
     end.

(** [typeDropdownOptions], given the two label columns of
    [materialsInputTypes]. *)
Definition typeDropdownOptions
  (dropdownValue elementsOnlyDropdownValue : MaterialsInputType -> string)
  (showTypeDropdown_prop : option bool)
  (allowedInputTypes : list MaterialsInputType) : list string :=
  if dropdownOnlyElementsOrChemSys showTypeDropdown_prop allowedInputTypes then
    [elementsOnlyDropdownValue CHEMICAL_SYSTEM; elementsOnlyDropdownValue ELEMENTS]
  else if showTypeDropdown showTypeDropdown_prop allowedInputTypes then
    map dropdownValue allowedInputTypes
  else [].




End MaterialsInput.

(** Unfold one effect body down to the world it builds. *)
Ltac run_js :=
  cbv [cameraEffect customCameraEffect sceneDispatch dataEffect mountCleanup
       unmount unmountOnError update effects when imageRequestEffect
       requestImage setPngData
       setColladaData runCallback hostRunsCallback downloadEvent
       SimpleSlider_onUpdate Scene_updateTime window_btoa throw_DOMException
       props_setProps Scene_updateCamera Scene_renderScene Scene_addToScene
       Scene_toggleVisibility Scene_onDestroy renderer_getPixelRatio
       renderer_setPixelRatio domElement_toDataURL Date_now window_setTimeout
       toDataUrl ColladaExporter_parse_scene download_subscribe
       subscription_unsubscribe
       call modify gets bind ret throw_Error log world_of threw
       set_trace set_camera set_scene set_canvas set_pixelRatio set_pending
       set_subscribed set_destroyed
       trace camera scene canvas pixelRatio pending subscribed destroyed
       renderer now].

Ltac same_world :=
  repeat rewrite <- app_assoc; simpl app; reflexivity.

(* ------------------------------------------------------------------ *)
(** * Properties *)

Unset Implicit Arguments.

Example btoa_demo : btoa (Demo.utf16 "<x/>") = Some "PHgvPg==".
Proof. reflexivity. Qed.

Example btoa_demo_padding : btoa (Demo.utf16 "hello") = Some "aGVsbG8=".
Proof. reflexivity. Qed.

(** U+00E5 is a Latin-1 character, U+03B1 is not. *)
Example btoa_demo_latin1 :
  Demo.utf16 (String "195"%char (String "165"%char "")) = [229%N]
  /\ btoa [229%N] = Some "5Q=="
  /\ Demo.utf16 (String "206"%char (String "177"%char "")) = [945%N]
  /\ btoa [945%N] = None.
Proof. repeat split. Qed.

Example div100_demo :
  div100 (Finite 0) = Finite 0
  /\ div100 (Finite 50) = Finite (1 # 2)
  /\ div100 (Finite 100) = Finite 1
  /\ div100 (Finite 33) = Finite (5944751508129055 # 18014398509481984)
  /\ div100 (Finite 1) = Finite (5764607523034235 # 576460752303423488)
  /\ div100 (Infinity false) = Infinity false
  /\ div100 NaN = NaN.
Proof. repeat split; vm_compute; reflexivity. Qed.

Section Lemmas.

Context {E : Externals}.

Lemma skipn_length_app (A : Type) (l l' : list A) :
  skipn (length l) (l ++ l') = l'.
Proof.
  induction l as [|a l IH]; simpl; [reflexivity | exact IH].
Qed.


Lemma new_events_log (A : Type) (m : M A) (w : World) (es : list Event) :
  trace (world_of (m w)) = trace w ++ es -> new_events m w = es.
Proof.
  intros H. unfold new_events. rewrite H. apply skipn_length_app.
Qed.

Lemma strict_eq_string_true (a b : option string) :
  strict_eq_string a b = true <-> a = b.
Proof.
  destruct a as [x|], b as [y|]; simpl; split; intros H;
    try discriminate; try reflexivity.
  - apply String.eqb_eq in H. now subst.
  - injection H as ->. apply String.eqb_refl.
Qed.

(** A commit whose effects return is the sequence of these effects. *)
Lemma update_returned (componentId : string) (props : Props.t) (h : Hooks)
  (ch : Changed) (w w' : World) :
  effects componentId props h ch w = Returned tt w' ->
  update componentId props h ch w = Returned tt w'.
Proof.
  intros H. unfold update, unmountOnError. now rewrite H.
Qed.

(** A commit whose effects throw ends with the clean up of the instance. *)
Lemma update_thrown (componentId : string) (props : Props.t) (h : Hooks)
  (ch : Changed) (w w' : World) (msg : string) :
  effects componentId props h ch w = Thrown msg w' ->
  update componentId props h ch w = Thrown msg (world_of (unmount w')).
Proof.
  intros H. unfold update, unmountOnError. now rewrite H.
Qed.

Lemma effects_only_cameraPosition (componentId : string) (props : Props.t)
  (h : Hooks) (w : World) :
  effects componentId props h only_cameraPosition w
  = cameraEffect componentId props h w.
Proof.
  unfold effects, when, only_cameraPosition, bind, ret. simpl.
  destruct (cameraEffect componentId props h w) as [[] ?|]; reflexivity.
Qed.

Lemma effects_only_data (componentId : string) (props : Props.t)
  (h : Hooks) (w : World) :
  effects componentId props h only_data w = dataEffect props w.
Proof.
  unfold effects, when, only_data, bind, ret. simpl.
  destruct (dataEffect props w) as [[] ?|]; reflexivity.
Qed.

Lemma effects_only_customCameraState (componentId : string) (props : Props.t)
  (h : Hooks) (w : World) :
  effects componentId props h only_customCameraState w
  = customCameraEffect componentId props h w.
Proof.
  unfold effects, when, only_customCameraState, bind, ret. simpl.
  destruct (customCameraEffect componentId props h w) as [[] ?|]; reflexivity.
Qed.

(** A commit in which no dependency changed does nothing. *)
Lemma update_nothing_changed (componentId : string) (props : Props.t)
  (h : Hooks) (w : World) :
  update componentId props h
         (mkChanged false false false false false false false false false) w
  = Returned tt w.
Proof. reflexivity. Qed.

End Lemmas.

Section CameraBus.

Context {E : Externals}.

(** What the camera effect does on a present camera state. *)
Lemma cameraEffect_run (componentId : string) (props : Props.t) (h : Hooks)
  (cs : CameraState.t) (w : World) :
  cameraState h = Some cs ->
  cameraEffect componentId props h w =
  Returned tt
    (match camera_applies componentId cs, CameraState.position cs with
     | true, Some p =>
         set_camera
           (updateCamera_camera p (CameraState.quaternion cs)
                                (CameraState.zoom cs) (camera w))
           (log [SetProps (AllPropsWith_currentCameraState props cs);
                 UpdateCamera p (CameraState.quaternion cs) (CameraState.zoom cs)] w)
     | _, _ => log [SetProps (AllPropsWith_currentCameraState props cs)] w
     end).
Proof.
  intros Hcs. unfold cameraEffect. rewrite Hcs.
  destruct (camera_applies componentId cs), (CameraState.position cs);
    destruct w; run_js; same_world.
Qed.

Lemma cameraEffect_events (componentId : string) (props : Props.t) (h : Hooks)
  (cs : CameraState.t) (w : World) :
  cameraState h = Some cs ->
  new_events (cameraEffect componentId props h) w =
  SetProps (AllPropsWith_currentCameraState props cs)
  :: match camera_applies componentId cs, CameraState.position cs with
     | true, Some p =>
         [UpdateCamera p (CameraState.quaternion cs) (CameraState.zoom cs)]
     | _, _ => []
     end.
Proof.
  intros Hcs. apply new_events_log.
  rewrite (cameraEffect_run componentId props h cs w Hcs).
  destruct (camera_applies componentId cs), (CameraState.position cs);
    destruct w; reflexivity.
Qed.

Lemma camera_applies_own (componentId : string) (cs : CameraState.t) :
  CameraState.setByComponentId cs = Some componentId ->
  camera_applies componentId cs = false.
Proof.
  intros Hown. unfold camera_applies.
  replace (strict_eq_string (CameraState.setByComponentId cs) (Some componentId))
    with true; [reflexivity|].
  symmetry. now apply strict_eq_string_true.
Qed.

(** C1.  A camera state received from the bus (shared context or local
    reducer) makes the instance call its Scene's updateCamera only if the
    state's setByComponentId differs from the instance's componentId.  In
    particular, on a state stamped with its own componentId the instance
    only reports the state to its owner: no updateCamera, camera untouched.
    This effect is all that a commit runs when only the camera position
    changed. *)
Theorem C1_camera_loop_prevention
  (componentId : string) (props : Props.t) (h : Hooks) (cs : CameraState.t)
  (w : World) :
  cameraState h = Some cs ->
  (forall p q z,
      In (UpdateCamera p q z) (new_events (cameraEffect componentId props h) w) ->
      CameraState.setByComponentId cs <> Some componentId)
  /\ (CameraState.setByComponentId cs = Some componentId ->
      cameraEffect componentId props h w
      = Returned tt (log [SetProps (AllPropsWith_currentCameraState props cs)] w)
      /\ updateCamera_calls (new_events (cameraEffect componentId props h) w) = 0%nat
      /\ camera (world_of (cameraEffect componentId props h w)) = camera w)
  /\ update componentId props h only_cameraPosition w
     = cameraEffect componentId props h w.
Proof.
  intros Hcs. split; [|split].
  3: { rewrite (cameraEffect_run componentId props h cs w Hcs).
       apply update_returned. rewrite effects_only_cameraPosition.
       apply (cameraEffect_run componentId props h cs w Hcs). }
  - intros p q z Hin Hown.
    rewrite (cameraEffect_events componentId props h cs w Hcs) in Hin.
    rewrite (camera_applies_own componentId cs Hown) in Hin.
    destruct Hin as [Habs | []]. discriminate Habs.
  - intros Hown.
    rewrite (cameraEffect_events componentId props h cs w Hcs).
    rewrite (cameraEffect_run componentId props h cs w Hcs).
    rewrite (camera_applies_own componentId cs Hown).
    repeat split.
Qed.

(** C9, as the code has it.  A camera state received from the bus is applied
    only if its position and quaternion are present and its zoom is present
    and truthy.  If one of them is missing, or zoom is 0 or NaN, the camera
    is left as it was, whoever set the state, and the only call the effect
    makes is the report of the state to the owner as currentCameraState.
    The effect, and with it the report, runs only in a commit in which the
    dependency cameraState.position changed: a state that replaces one
    without a position and has none itself, or that carries the same
    position object as the one it replaces, causes no call at all. *)
Theorem C9_incomplete_camera_state_ignored
  (componentId : string) (props : Props.t) (h : Hooks) (cs : CameraState.t)
  (w : World) :
  cameraState h = Some cs ->
  (forall p q z,
      In (UpdateCamera p q z) (new_events (cameraEffect componentId props h) w) ->
      CameraState.position cs = Some p
      /\ (exists q', CameraState.quaternion cs = Some q' /\ q = Some q')
      /\ (exists z', CameraState.zoom cs = Some z' /\ z = Some z'
                     /\ number_truthy z' = true))
  /\ (CameraState.position cs = None
      \/ CameraState.quaternion cs = None
      \/ CameraState.zoom cs = None
      \/ CameraState.zoom cs = Some NaN
      \/ (exists q, CameraState.zoom cs = Some (Finite q) /\ (q == 0)%Q) ->
      cameraEffect componentId props h w
      = Returned tt (log [SetProps (AllPropsWith_currentCameraState props cs)] w)
      /\ camera (world_of (cameraEffect componentId props h w)) = camera w)
  /\ (forall previous same_object,
        cameraStateReceived componentId props previous same_object h w
        = if cameraPosition_dep_changed same_object
               (CameraState.position previous) (CameraState.position cs)
          then cameraEffect componentId props h w
          else Returned tt w)
  /\ (forall previous same_object,
        CameraState.position previous = None ->
        CameraState.position cs = None ->
        cameraStateReceived componentId props previous same_object h w
        = Returned tt w)
  /\ (forall previous,
        CameraState.position previous <> None ->
        CameraState.position cs <> None ->
        cameraStateReceived componentId props previous true h w
        = Returned tt w)
  /\ (forall previous same_object,
        CameraState.position previous <> None ->
        CameraState.position cs = None ->
        cameraStateReceived componentId props previous same_object h w
        = Returned tt
            (log [SetProps (AllPropsWith_currentCameraState props cs)] w)).
Proof.
  intros Hcs.
  assert (Hreceived : forall previous same_object,
        cameraStateReceived componentId props previous same_object h w
        = if cameraPosition_dep_changed same_object
               (CameraState.position previous) (CameraState.position cs)
          then cameraEffect componentId props h w
          else Returned tt w).
  { intros previous same_object. unfold cameraStateReceived. rewrite Hcs.
    destruct (cameraPosition_dep_changed same_object
                (CameraState.position previous) (CameraState.position cs)).
    - rewrite (cameraEffect_run componentId props h cs w Hcs).
      apply update_returned.
      change (mkChanged false false false false false false true false false)
        with only_cameraPosition.
      rewrite effects_only_cameraPosition.
      apply (cameraEffect_run componentId props h cs w Hcs).
    - apply update_nothing_changed. }
  assert (Hmissing : CameraState.position cs = None
      \/ CameraState.quaternion cs = None
      \/ CameraState.zoom cs = None
      \/ CameraState.zoom cs = Some NaN
      \/ (exists q, CameraState.zoom cs = Some (Finite q) /\ (q == 0)%Q) ->
      cameraEffect componentId props h w
      = Returned tt (log [SetProps (AllPropsWith_currentCameraState props cs)] w)
      /\ camera (world_of (cameraEffect componentId props h w)) = camera w).
  { intros Hmiss.
    rewrite (cameraEffect_run componentId props h cs w Hcs).
    assert (Hno : camera_applies componentId cs = false).
    { unfold camera_applies.
      destruct Hmiss as [-> | [-> | [-> | [-> | [q [-> Hq0]]]]]]; simpl;
        repeat rewrite andb_false_r; try reflexivity.
      apply Qeq_bool_iff in Hq0. rewrite Hq0. simpl.
      repeat rewrite andb_false_r. reflexivity. }
    rewrite Hno. split; [reflexivity|]. destruct w; reflexivity. }
  split; [|split; [exact Hmissing|split; [exact Hreceived|split; [|split]]]].
  - intros p q z Hin.
    rewrite (cameraEffect_events componentId props h cs w Hcs) in Hin.
    unfold camera_applies in Hin.
    destruct (CameraState.position cs) as [p'|] eqn:Hp;
      destruct (CameraState.quaternion cs) as [q'|] eqn:Hq;
      destruct (CameraState.zoom cs) as [z'|] eqn:Hz;
      simpl in Hin;
      repeat rewrite andb_false_r in Hin; simpl in Hin;
      try (destruct Hin as [Habs | []]; discriminate Habs).
    destruct (negb (strict_eq_string (CameraState.setByComponentId cs)
                                     (Some componentId))); simpl in Hin;
      destruct (number_truthy z') eqn:Ht; simpl in Hin;
      try (destruct Hin as [Habs | []]; discriminate Habs).
    destruct Hin as [Habs | [Hev | []]]; [discriminate Habs|].
    injection Hev as <- <- <-.
    split; [reflexivity|]. split; [now exists q' | now exists z'].
  - intros previous same_object Hprev Hnext.
    rewrite Hreceived, Hprev, Hnext. reflexivity.
  - intros previous Hprev Hnext. rewrite Hreceived.
    destruct (CameraState.position previous); [|now elim Hprev].
    destruct (CameraState.position cs); [reflexivity | now elim Hnext].
  - intros previous same_object Hprev Hnext. rewrite Hreceived.
    destruct (CameraState.position previous); [|now elim Hprev].
    rewrite Hnext. simpl. apply Hmissing. now left.
Qed.

End CameraBus.

(** C1 at a concrete input: instance "1" gets back, through its own reducer,
    a complete state it published itself. *)
Lemma C1_camera_loop_prevention_witness :
  let own :=
    CameraState.make (Some (Quaternion.new None None None None))
                     (Some (Vector3.new (Some (Finite 1)) None None))
                     (Some (Finite 2)) (Some "1") None in
  cameraEffect "1" Demo.props0 (mkHooks None (Some own)) Demo.world0
  = Returned tt
      (log [SetProps (AllPropsWith_currentCameraState Demo.props0 own)] Demo.world0).
Proof.
  intros own.
  apply (proj1 (proj2 (@C1_camera_loop_prevention Demo.externals "1" Demo.props0
                         (mkHooks None (Some own)) own Demo.world0 eq_refl))).
  reflexivity.
Defined.

(** C9 at a concrete input: instance "1" receives from instance "2" a state
    whose zoom is 0. *)
Lemma C9_incomplete_camera_state_ignored_witness :
  let other :=
    CameraState.make (Some (Quaternion.new None None None None))
                     (Some (Vector3.new (Some (Finite 1)) None None))
                     (Some (Finite 0)) (Some "2") None in
  cameraEffect "1" Demo.props0 (mkHooks None (Some other)) Demo.world0
  = Returned tt
      (log [SetProps (AllPropsWith_currentCameraState Demo.props0 other)] Demo.world0).
Proof.
  intros other.
  apply (proj1 (proj2 (@C9_incomplete_camera_state_ignored Demo.externals "1"
                         Demo.props0 (mkHooks None (Some other)) other
                         Demo.world0 eq_refl))).
  right. right. right. right. exists 0%Q. split; reflexivity.
Defined.

(** C9 fails as stated: instance "1" holds a camera state without a position
    and receives from instance "2" another state without a position (its
    zoom differs).  The dependency of the effect is unchanged, the effect
    does not run, and the state is not reported to the owner.  The same
    happens when a state with zoom 0 arrives that carries the position
    object of the state it replaces. *)
Lemma C9_counterexample :
  let previous :=
    CameraState.make (Some (Quaternion.new None None None None)) None
                     (Some (Finite 1)) (Some "2") None in
  let received :=
    CameraState.make (Some (Quaternion.new None None None None)) None
                     (Some (Finite 2)) (Some "2") None in
  let h := mkHooks None (Some received) in
  let position := Vector3.new (Some (Finite 1)) None None in
  let previous' :=
    CameraState.make (Some (Quaternion.new None None None None)) (Some position)
                     (Some (Finite 1)) (Some "2") None in
  let received' :=
    CameraState.make (Some (Quaternion.new None None None None)) (Some position)
                     (Some (Finite 0)) (Some "2") None in
  let h' := mkHooks None (Some received') in
  cameraState h = Some received
  /\ received <> previous
  /\ CameraState.position received = None
  /\ cameraStateReceived "1" Demo.props0 previous false h Demo.world0
     = Returned tt Demo.world0
  /\ (forall arg,
        ~ In (SetProps arg)
             (new_events (cameraStateReceived "1" Demo.props0 previous false h)
                         Demo.world0))
  /\ cameraState h' = Some received'
  /\ received' <> previous'
  /\ cameraStateReceived "1" Demo.props0 previous' true h' Demo.world0
     = Returned tt Demo.world0
  /\ (forall arg,
        ~ In (SetProps arg)
             (new_events (cameraStateReceived "1" Demo.props0 previous' true h')
                         Demo.world0)).
Proof.
  repeat split; try discriminate; intros arg [].
Qed.

Section ExportPipeline.

Context {E : Externals}.

(** The raster export on the WebGL renderer, up to the point where it
    returns: the restore step is queued, not run. *)
Lemma setPngData_webgl (w : World) :
  renderer w = WebGLRenderer ->
  setPngData w =
  Returned tt
    (set_pending (pending w ++ [restorePixelRatio (pixelRatio w)])
       (set_canvas (Some (scene w, camera w, Finite 8))
          (set_pixelRatio (Finite 8)
             (log [SetPixelRatio (Finite 8); RenderScene; ToDataURL "image/png";
                   SetProps (ImageData
                               (canvas_toDataURL (Some (scene w, camera w, Finite 8)))
                               (now w));
                   SetTimeout (restorePixelRatio (pixelRatio w))] w)))).
Proof.
  intros Hr. destruct w; simpl in Hr; subst. run_js. same_world.
Qed.

(** The raster export on the SVG renderer. *)
Lemma setPngData_svg (w : World) :
  renderer w = SVGRenderer ->
  setPngData w =
  Returned tt
    (set_pending
       (pending w
        ++ [svgImageData (svgtodatauri (Some (scene w, camera w, pixelRatio w)))])
       (set_canvas (Some (scene w, camera w, pixelRatio w))
          (log [RenderScene; SvgToDataUrl "image/png"] w))).
Proof.
  intros Hr. destruct w; simpl in Hr; subst. run_js. same_world.
Qed.

(** The Collada export: the exporter runs and its completion callback is
    queued; then [btoa] either encodes the document, which is handed to the
    owner, or throws. *)
Lemma setColladaData_run (w : World) :
  setColladaData w =
  match btoa (ColladaExporter_parse (scene w)) with
  | Some encoded =>
      Returned tt
        (set_pending (pending w ++ [colladaDone])
           (log [ColladaParse;
                 SetProps (ImageData ("data:text/plain;base64," ++ encoded)%string
                                     (now w))] w))
  | None =>
      Thrown "InvalidCharacterError"
        (set_pending (pending w ++ [colladaDone]) (log [ColladaParse] w))
  end.
Proof.
  destruct w as [r pr sc cam cv t sub des pend tr].
  unfold setColladaData, ColladaExporter_parse_scene, window_btoa, bind, call,
    modify, gets. cbn [scene set_trace set_pending trace pending renderer
    pixelRatio camera canvas now subscribed destroyed].
  destruct (btoa (ColladaExporter_parse sc)) as [encoded|].
  - run_js. same_world.
  - run_js. reflexivity.
Qed.




(** The raster export leaves the graph and the camera alone. *)
Lemma setPngData_keeps_graph (w : World) :
  scene (world_of (setPngData w)) = scene w
  /\ camera (world_of (setPngData w)) = camera w.
Proof.
  destruct (renderer w) eqn:Hr.
  - rewrite (setPngData_webgl w Hr). destruct w; split; reflexivity.
  - rewrite (setPngData_svg w Hr). destruct w; split; reflexivity.
Qed.

(** The Collada export leaves the renderer, the graph, the camera and the
    output surface alone, whether it returns or throws. *)
Lemma setColladaData_keeps_viewport (w : World) :
  let w' := world_of (setColladaData w) in
  pixelRatio w' = pixelRatio w /\ scene w' = scene w
  /\ camera w' = camera w /\ canvas w' = canvas w
  /\ subscribed w' = subscribed w /\ destroyed w' = destroyed w.
Proof.
  cbv zeta. rewrite setColladaData_run.
  destruct (btoa (ColladaExporter_parse (scene w)));
    destruct w; repeat split.
Qed.



(** Running the [i]-th queued callback: it leaves the queue and its body
    runs. *)
Lemma hostRunsCallback_run (i : nat) (cb : Callback) (w : World) :
  nth_error (pending w) i = Some cb ->
  hostRunsCallback i w = runCallback cb (set_pending (without i (pending w)) w).
Proof.
  intros Hi. unfold hostRunsCallback, bind, gets, modify. rewrite Hi. reflexivity.
Qed.


(** What each completion callback calls when it runs. *)
Lemma runCallback_events (cb : Callback) (w : World) :
  new_events (runCallback cb) w =
  match cb with
  | restorePixelRatio oldRatio => [SetPixelRatio oldRatio; RenderScene]
  | svgImageData imageData => [SetProps (ImageData imageData (now w))]
  | colladaDone => [ConsoleLog "result"]
  end.
Proof.
  apply new_events_log.
  destruct cb; destruct w; run_js; same_world.
Qed.




End ExportPipeline.

Section Doubles.

Local Open Scope Z_scope.

Lemma round_half_even_near (n d : Z) :
  0 < d -> 2 * (round_half_even n d * d - n) <= d /\ 2 * (n - round_half_even n d * d) <= d.
Proof.
  intros Hd. unfold round_half_even.
  pose proof (Z.div_mod n d ltac:(lia)) as Hdm.
  pose proof (Z.mod_pos_bound n d Hd) as Hr.
  destruct (2 * (n mod d) <? d) eqn:H1; [apply Z.ltb_lt in H1; nia|apply Z.ltb_ge in H1].
  destruct (d <? 2 * (n mod d)) eqn:H2; [apply Z.ltb_lt in H2; nia|apply Z.ltb_ge in H2].
  destruct (Z.even (n / d)); nia.
Qed.

Lemma round_half_even_bounds (n d b : Z) :
  0 < d -> 0 <= n -> n <= b * d -> 0 <= round_half_even n d <= b.
Proof.
  intros Hd Hn Hb. unfold round_half_even.
  pose proof (Z.div_mod n d ltac:(lia)) as Hdm.
  pose proof (Z.mod_pos_bound n d Hd) as Hr.
  assert (0 <= n / d) by (apply Z.div_pos; lia).
  assert (n / d < b \/ (n / d = b /\ n mod d = 0)) as Hq by nia.
  destruct (2 * (n mod d) <? d) eqn:H1; [lia|apply Z.ltb_ge in H1].
  destruct (d <? 2 * (n mod d)) eqn:H2; [lia|].
  destruct (Z.even (n / d)); lia.
Qed.

Lemma floor_log2_le (n d : Z) : 0 < n -> n <= d -> floor_log2 n d <= 0.
Proof.
  intros Hn Hd. unfold floor_log2.
  pose proof (Z.log2_le_mono n d Hd).
  destruct (0 <=? Z.log2 n - Z.log2 d);
    [destruct (d * 2 ^ (Z.log2 n - Z.log2 d) <=? n)
    |destruct (d <=? n * 2 ^ (- (Z.log2 n - Z.log2 d)))]; lia.
Qed.

(** On the unit interval the rounding is a rational within [2^-53] of
    its argument that stays in the unit interval. *)
Lemma binary64_magnitude_unit (n d : positive) :
  (Zpos n <= Zpos d)%Z ->
  exists t : Q,
    binary64_magnitude (Zpos n) (Zpos d) = Some t /\
    (0 <= t)%Q /\ (t <= 1)%Q /\
    (t <= (Zpos n # d) + (1 # 9007199254740992))%Q /\
    ((Zpos n # d) <= t + (1 # 9007199254740992))%Q.
Proof.
  intros Hle. unfold binary64_magnitude.
  pose proof (floor_log2_le (Zpos n) (Zpos d) ltac:(lia) Hle) as He.
  set (e := floor_log2 (Zpos n) (Zpos d)) in *. clearbody e.
  set (k := Z.max e (-1022) - 52).
  assert (-1074 <= k <= -52) as Hk by (unfold k; lia).
  clearbody k.
  destruct (0 <=? k) eqn:H0; [apply Z.leb_le in H0; lia|clear H0].
  eexists. split; [reflexivity|].
  assert (2 ^ 52 <= 2 ^ (- k)) as HP by (apply Z.pow_le_mono_r; lia).
  set (P := 2 ^ (- k)) in *. clearbody P.
  pose proof (round_half_even_near (Zpos n * P) (Zpos d) ltac:(lia)) as [Hup Hlo].
  pose proof (round_half_even_bounds (Zpos n * P) (Zpos d) P ltac:(lia) ltac:(nia) ltac:(nia)) as Hb.
  set (m := round_half_even (Zpos n * P) (Zpos d)) in *. clearbody m.
  assert (Zpos (Z.to_pos P) = P) as HPp by (apply Z2Pos.id; lia).
  change (2 ^ 52) with 4503599627370496 in HP.
  rewrite !Qred_correct.
  unfold Qle, Qplus; cbn [Qnum Qden]. rewrite ?Pos2Z.inj_mul, HPp.
  repeat split; try nia.
Qed.

(** The double nearest to a rational of the unit interval lies in the unit
    interval, within [2^-53] of the rational. *)
Lemma binary64_unit (x : Q) :
  (0 <= x)%Q -> (x <= 1)%Q ->
  exists t : Q,
    binary64 x = Finite t /\ (0 <= t)%Q /\ (t <= 1)%Q
    /\ (t <= x + (1 # 9007199254740992))%Q
    /\ (x <= t + (1 # 9007199254740992))%Q.
Proof.
  destruct x as [[|n|n] d]; intros H0 H1.
  - exists 0%Q. split; [reflexivity|].
    unfold Qle, Qplus; cbn [Qnum Qden]. repeat split; lia.
  - assert (Hle : Zpos n <= Zpos d).
    { unfold Qle in H1. cbn [Qnum Qden] in H1. lia. }
    destruct (binary64_magnitude_unit n d Hle) as (t & Ht & Hb).
    exists t. unfold binary64. cbn [Qnum Qden]. rewrite Ht. now split.
  - unfold Qle in H0. cbn [Qnum Qden] in H0. lia.
Qed.

End Doubles.

Section DataAndCamera.

Context {E : Externals}.

(** The two outcomes of the data effect. *)
Lemma dataEffect_run (props : Props.t) (w : World) :
  dataEffect props w =
  Returned tt
    (match no_data (Props.data props), Props.data props with
     | false, Some d =>
         set_scene
           (toggleVisibility_graph (Props.toggleVisibility props)
                                   (addToScene_graph d (scene w)))
           (log [AddToScene d true;
                 ToggleVisibility (Props.toggleVisibility props)] w)
     | false, None =>
         set_scene
           (toggleVisibility_graph (Props.toggleVisibility props) (scene w))
           (log [ToggleVisibility (Props.toggleVisibility props)] w)
     | true, _ =>
         log [ConsoleWarn
                "no data passed ( or missing name /content ), scene will not be updated"
                (Props.data props)] w
     end).
Proof.
  unfold dataEffect.
  destruct (no_data (Props.data props)), (Props.data props);
    destruct w; run_js; same_world.
Qed.

(** C3, as the code has it.  On a change of the document: if the document is
    absent, or its name is absent or the empty string, or its contents are
    absent, then nothing is called but console.warn (no addToScene, the graph
    is the one that was there); otherwise addToScene is called with the new
    document and [true], and then toggleVisibility with the current map. *)
Theorem C3_falsy_document_skips_rebuild (props : Props.t) (w : World) :
  (Props.data props = None
   \/ (exists d, Props.data props = Some d
                 /\ (name d = None \/ name d = Some "" \/ contents d = None)) ->
   dataEffect props w
   = Returned tt
       (log [ConsoleWarn
               "no data passed ( or missing name /content ), scene will not be updated"
               (Props.data props)] w)
   /\ scene (world_of (dataEffect props w)) = scene w
   /\ canvas (world_of (dataEffect props w)) = canvas w)
  /\ (forall d n c,
         Props.data props = Some d ->
         name d = Some n -> n <> "" -> contents d = Some c ->
         dataEffect props w
         = Returned tt
             (set_scene
                (toggleVisibility_graph (Props.toggleVisibility props)
                                        (addToScene_graph d (scene w)))
                (log [AddToScene d true;
                      ToggleVisibility (Props.toggleVisibility props)] w)))
  /\ (forall componentId h,
         update componentId props h only_data w = dataEffect props w).
Proof.
  split; [|split].
  - intros Hfalsy.
    assert (Hno : no_data (Props.data props) = true).
    { destruct Hfalsy as [-> | [d [-> [Hn | [Hn | Hc]]]]]; simpl;
        try rewrite Hn; try rewrite Hc; simpl;
        try reflexivity; apply orb_true_r. }
    rewrite dataEffect_run, Hno.
    repeat split; destruct w; reflexivity.
  - intros d n c Hd Hn Hne Hc.
    rewrite dataEffect_run, Hd. simpl. rewrite Hn, Hc.
    destruct n as [|a n]; [contradiction|]. reflexivity.
  - intros componentId h. rewrite dataEffect_run. apply update_returned.
    rewrite effects_only_data. apply dataEffect_run.
Qed.

(** [new THREE.Vector3(p.x, p.y, p.z)] of a vector is that vector. *)
Lemma Vector3_new_of (v : Vector3.t) :
  Vector3.new (Some (Vector3.x v)) (Some (Vector3.y v)) (Some (Vector3.z v)) = v.
Proof. now destruct v. Qed.

Lemma Quaternion_new_of (q : Quaternion.t) :
  Quaternion.new (Some (Quaternion.x q)) (Some (Quaternion.y q))
                 (Some (Quaternion.z q)) (Some (Quaternion.w q)) = q.
Proof. now destruct q. Qed.

(** What the custom camera effect does on a present custom state. *)
Lemma customCameraEffect_run (componentId : string) (props : Props.t)
  (h : Hooks) (custom : CameraState.t) (w : World) :
  Props.customCameraState props = Some custom ->
  customCameraEffect componentId props h w
  = Returned tt
      (set_camera
         (updateCamera_camera (custom_position custom)
                              (Some (custom_quaternion custom))
                              (CameraState.zoom custom) (camera w))
         (log ([UpdateCamera (custom_position custom)
                             (Some (custom_quaternion custom))
                             (CameraState.zoom custom)]
               ++ match cameraContext h with
                  | None =>
                      [CameraDispatch ReducerDispatch
                         (NEW_POSITION
                            (CameraActionPayload.make componentId
                               (custom_position custom) (custom_quaternion custom)
                               (CameraState.zoom custom)))]
                  | Some ctx =>
                      if CameraContext.dispatch ctx then
                        [CameraDispatch ContextDispatch
                           (NEW_POSITION
                              (CameraActionPayload.make componentId
                                 (custom_position custom) (custom_quaternion custom)
                                 (CameraState.zoom custom)))]
                      else []
                  end
               ++ [ConsoleLog "new props"]) w)).
Proof.
  intros Hcustom. unfold customCameraEffect, cameraDispatch.
  rewrite Hcustom.
  fold (custom_position custom). fold (custom_quaternion custom).
  destruct (cameraContext h) as [[st []]|]; cbn [CameraContext.dispatch];
    destruct w; run_js; same_world.
Qed.

(** C7, as the code has it.  When the customCameraState prop is set, its
    position and quaternion are rebuilt as three.js objects (a present one
    keeps its components, an absent one gets the constructor defaults) and
    updateCamera is called exactly once with them and the given zoom.  Then
    one NEW_POSITION action carrying the same values and the instance's own
    componentId is dispatched: to the component's own reducer outside a
    camera context, to the context's dispatch function inside one; if the
    context value has no dispatch function, nothing is published.  What is
    published is the action the instance's Scene dispatches for a camera
    change the user made. *)
Theorem C7_customCameraState_applied_and_republished
  (componentId : string) (props : Props.t) (h : Hooks) (custom : CameraState.t)
  (w : World) :
  Props.customCameraState props = Some custom ->
  let position := custom_position custom in
  let quaternion := custom_quaternion custom in
  let zoom := CameraState.zoom custom in
  let action :=
    NEW_POSITION (CameraActionPayload.make componentId position quaternion zoom) in
  let publication :=
    match cameraContext h with
    | None => [CameraDispatch ReducerDispatch action]
    | Some ctx =>
        if CameraContext.dispatch ctx then [CameraDispatch ContextDispatch action]
        else []
    end in
  customCameraEffect componentId props h w
  = Returned tt
      (set_camera
         (updateCamera_camera position (Some quaternion) zoom (camera w))
         (log ([UpdateCamera position (Some quaternion) zoom]
               ++ publication ++ [ConsoleLog "new props"]) w))
  /\ updateCamera_calls (new_events (customCameraEffect componentId props h) w)
     = 1%nat
  /\ update componentId props h only_customCameraState w
     = customCameraEffect componentId props h w
  /\ (forall z, zoom = Some z ->
        new_events (sceneDispatch componentId h position quaternion z) w
        = publication)
  /\ (forall v, CameraState.position custom = Some v -> position = v)
  /\ (forall q, CameraState.quaternion custom = Some q -> quaternion = q)
  /\ (CameraState.position custom = None ->
      position = Vector3.make (Finite 0) (Finite 0) (Finite 0))
  /\ (CameraState.quaternion custom = None ->
      quaternion = Quaternion.make (Finite 0) (Finite 0) (Finite 0) (Finite 1)).
Proof.
  intros Hcustom position quaternion zoom action publication.
  assert (Hrun : customCameraEffect componentId props h w
       = Returned tt
           (set_camera
              (updateCamera_camera position (Some quaternion) zoom (camera w))
              (log ([UpdateCamera position (Some quaternion) zoom]
                    ++ publication ++ [ConsoleLog "new props"]) w))).
  { exact (customCameraEffect_run componentId props h custom w Hcustom). }
  split; [exact Hrun|].
  split.
  { rewrite (new_events_log unit (customCameraEffect componentId props h) w
               ([UpdateCamera position (Some quaternion) zoom]
                ++ publication ++ [ConsoleLog "new props"])).
    - unfold publication. destruct (cameraContext h) as [[st []]|]; reflexivity.
    - rewrite Hrun. destruct w; reflexivity. }
  split.
  { rewrite Hrun. apply update_returned.
    rewrite effects_only_customCameraState. exact Hrun. }
  split.
  { intros z Hz. apply new_events_log.
    unfold sceneDispatch, cameraDispatch, publication, action. rewrite Hz.
    destruct (cameraContext h) as [[st []]|]; cbn [CameraContext.dispatch];
      destruct w; run_js; rewrite ?app_nil_r; reflexivity. }
  split.
  { intros v Hv. unfold position, custom_position. rewrite Hv. simpl.
    apply Vector3_new_of. }
  split.
  { intros q Hq. unfold quaternion, custom_quaternion. rewrite Hq. simpl.
    apply Quaternion_new_of. }
  split.
  { intros Hv. unfold position, custom_position. now rewrite Hv. }
  intros Hq. unfold quaternion, custom_quaternion. now rewrite Hq.
Qed.

(** C8.  The slider element is in the render output exactly when the
    animation prop is 'slider'.  Its onUpdate handler forwards a value [a]
    as one call [updateTime(a / 100)], the quotient being the double nearest
    to the exact one, and does nothing else; the engine moves its graph to
    the time it is given.  For [a] between 0 and 100 the forwarded time is
    between 0 and 1 and within [2^-53] of [a / 100]; 0 and 100 are forwarded
    as exactly 0 and 1. *)
Theorem C8_slider_forwards_normalized_time
  (props : Props.t) (a : number) (w : World) :
  (In SimpleSlider (render props)
   <-> Props.animation props = Some AnimationStyle.SLIDER)
  /\ SimpleSlider_onUpdate a w
     = Returned tt
         (set_scene (updateTime_graph (div100 a) (scene w))
                    (log [UpdateTime (div100 a)] w))
  /\ (number_between 0 100 a -> number_between 0 1 (div100 a))
  /\ (forall q, a = Finite q -> number_between 0 100 a ->
        number_between (q / 100 - (1 # 9007199254740992))
                       (q / 100 + (1 # 9007199254740992)) (div100 a))
  /\ div100 (Finite 0) = Finite 0
  /\ div100 (Finite 100) = Finite 1.
Proof.
  assert (Hunit : forall q, number_between 0 100 (Finite q) ->
            exists t : Q,
              div100 (Finite q) = Finite t /\ (0 <= t)%Q /\ (t <= 1)%Q
              /\ (t <= q / 100 + (1 # 9007199254740992))%Q
              /\ (q / 100 <= t + (1 # 9007199254740992))%Q).
  { intros q [Hlo Hhi]. apply binary64_unit.
    - apply Qle_shift_div_l; [reflexivity|]. now rewrite Qmult_0_l.
    - apply Qle_shift_div_r; [reflexivity|]. now rewrite Qmult_1_l. }
  split; [|split; [|split; [|split; [|split]]]].
  - unfold render. rewrite !in_app_iff.
    destruct (strict_eq_string (Props.animation props)
                               (Some AnimationStyle.SLIDER)) eqn:Hs.
    + apply strict_eq_string_true in Hs. split; [intros _; exact Hs|].
      intros _. right. right. now left.
    + split.
      * intros [Hm | [Hd | Hn]].
        -- destruct Hm as [Hm | []]. discriminate Hm.
        -- destruct (opt_truthy (fun b : bool => b) (Props.debug props));
             [destruct Hd as [Hd | []]; discriminate Hd | destruct Hd].
        -- destruct Hn.
      * intros Ha. apply strict_eq_string_true in Ha.
        rewrite Ha in Hs. discriminate Hs.
  - destruct w; reflexivity.
  - destruct a as [| s | q]; try (simpl; tauto).
    intros Hq. destruct (Hunit q Hq) as (t & -> & H0 & H1 & _).
    now split.
  - intros q -> Hq. destruct (Hunit q Hq) as (t & -> & _ & _ & Hup & Hlo).
    split; lra.
  - reflexivity.
  - vm_compute. reflexivity.
Qed.

End DataAndCamera.

Section Teardown.

Context {E : Externals}.

Lemma unmount_run (w : World) :
  unmount w =
  Returned tt
    (set_destroyed true (set_subscribed false (log [Unsubscribe; OnDestroy] w))).
Proof.
  destruct w. run_js. same_world.
Qed.

(** C2, as the code has it.  Teardown unsubscribes from the download bus and
    then calls Scene.onDestroy, so a later download event no longer reaches
    the instance.  It does not touch the completion callbacks that are still
    pending: they stay queued, and each of them, when the host runs it after
    teardown, makes the same calls it would have made before (pixel ratio
    reset and re-render, setProps with the encoded image, console.log). *)
Theorem C2_teardown_keeps_pending_callbacks (w : World) :
  let w' := world_of (unmount w) in
  new_events unmount w = [Unsubscribe; OnDestroy]
  /\ subscribed w' = false
  /\ destroyed w' = true
  /\ (forall filetype, downloadEvent filetype w' = Returned tt w')
  /\ pending w' = pending w
  /\ (forall i cb,
         nth_error (pending w) i = Some cb ->
         new_events (hostRunsCallback i) w' =
         match cb with
         | restorePixelRatio oldRatio => [SetPixelRatio oldRatio; RenderScene]
         | svgImageData imageData => [SetProps (ImageData imageData (now w))]
         | colladaDone => [ConsoleLog "result"]
         end).
Proof.
  intros w'.
  assert (Hw' : w' = set_destroyed true
                       (set_subscribed false (log [Unsubscribe; OnDestroy] w))).
  { unfold w'. now rewrite unmount_run. }
  split. { apply new_events_log. rewrite unmount_run. destruct w; reflexivity. }
  split. { rewrite Hw'. destruct w; reflexivity. }
  split. { rewrite Hw'. destruct w; reflexivity. }
  split. { intros filetype. rewrite Hw'. destruct w; reflexivity. }
  assert (Hp : pending w' = pending w).
  { rewrite Hw'. destruct w; reflexivity. }
  split; [exact Hp|].
  intros i cb Hi.
  assert (Hnow : now w' = now w). { rewrite Hw'. destruct w; reflexivity. }
  unfold new_events.
  rewrite (hostRunsCallback_run i cb w') by (rewrite Hp; exact Hi).
  change (new_events (runCallback cb) (set_pending (without i (pending w')) w')
          = match cb with
            | restorePixelRatio oldRatio => [SetPixelRatio oldRatio; RenderScene]
            | svgImageData imageData => [SetProps (ImageData imageData (now w))]
            | colladaDone => [ConsoleLog "result"]
            end).
  rewrite runCallback_events. rewrite <- Hnow.
  destruct cb; reflexivity.
Qed.

End Teardown.

Section ComponentIdentity.

Import Identity.
Local Open Scope N_scope.

Lemma to_uint_not_Nil (n : N) : N.to_uint n <> Decimal.Nil.
Proof.
  intros H. assert (Hn : N.of_uint (N.to_uint n) = 0) by (now rewrite H).
  rewrite DecimalN.Unsigned.of_to in Hn. subst n. discriminate H.
Qed.

(** Distinct integers print differently. *)
Lemma toString_inj (a b : N) : toString a = toString b -> a = b.
Proof.
  unfold toString. intros H.
  apply DecimalN.Unsigned.to_uint_inj.
  assert (Ha := NilZero.usu (N.to_uint a) (to_uint_not_Nil a)).
  assert (Hb := NilZero.usu (N.to_uint b) (to_uint_not_Nil b)).
  rewrite H in Ha. rewrite Ha in Hb. now injection Hb.
Qed.

Lemma pre_increment_below (g : N) : g < 2 ^ 53 -> pre_increment g = g + 1.
Proof.
  intros H. unfold pre_increment. apply N.ltb_lt in H. now rewrite H.
Qed.

Lemma pre_increment_le (g : N) : g <= pre_increment g.
Proof.
  unfold pre_increment. destruct (g <? 2 ^ 53); lia.
Qed.

Lemma set_nth_same (A : Type) (l : list A) (i : nat) (a : A) :
  nth_error l i = Some a -> set_nth i a l = l.
Proof.
  revert i. induction l as [|x l IH]; intros [|i] H; simpl in *;
    try discriminate; try reflexivity.
  - now injection H as ->.
  - now rewrite IH.
Qed.

(** A first render below the bound: the counter moves by one and the new
    instance gets its decimal string. *)
Lemma step_Mount (p : Process) :
  ID_GENERATOR p < 2 ^ 53 ->
  step p Mount
  = mkProcess (ID_GENERATOR p + 1)
              (instances p ++ [toString (ID_GENERATOR p + 1)]).
Proof.
  intros H. unfold step, render_componentId, useRef.
  now rewrite (pre_increment_below _ H).
Qed.

(** A later render of a mounted instance: the counter moves by one, the
    identities stay. *)
Lemma step_Rerender (p : Process) (i : nat) (held : string) :
  ID_GENERATOR p < 2 ^ 53 ->
  nth_error (instances p) i = Some held ->
  step p (Rerender i) = mkProcess (ID_GENERATOR p + 1) (instances p).
Proof.
  intros H Hi. unfold step, render_componentId, useRef. rewrite Hi.
  rewrite (pre_increment_below _ H). now rewrite (set_nth_same _ _ _ _ Hi).
Qed.

Lemma step_counter_le (p : Process) (a : Action) :
  ID_GENERATOR p <= ID_GENERATOR (step p a).
Proof.
  destruct a as [|i]; simpl.
  - apply pre_increment_le.
  - destruct (nth_error (instances p) i); simpl;
      [apply pre_increment_le | lia].
Qed.

Lemma run_snoc (acts : list Action) (a : Action) :
  run (acts ++ [a]) = step (run acts) a.
Proof.
  unfold run, run_from. now rewrite fold_left_app.
Qed.

Lemma mounts_snoc (acts : list Action) (a : Action) :
  mounts (acts ++ [a])
  = (mounts acts + match a with Mount => 1 | Rerender _ => 0 end)%nat.
Proof.
  unfold mounts. rewrite filter_app, length_app. now destruct a.
Qed.

(** While the counter is below 2^53 the identities handed out are the
    decimal strings of distinct counter values, one per mount. *)
Lemma run_invariant (acts : list Action) :
  ID_GENERATOR (run acts) < 2 ^ 53 ->
  exists ns : list N,
    instances (run acts) = map toString ns
    /\ NoDup ns
    /\ Forall (fun n => 1 <= n <= ID_GENERATOR (run acts)) ns
    /\ length ns = mounts acts.
Proof.
  induction acts as [|a acts IH] using rev_ind; intros Hlt.
  - exists []. repeat split; constructor.
  - rewrite run_snoc in *. rewrite mounts_snoc.
    pose proof (step_counter_le (run acts) a) as Hle.
    assert (Hp : ID_GENERATOR (run acts) < 2 ^ 53) by lia.
    destruct (IH Hp) as (ns & Hmap & Hnd & Hall & Hlen).
    destruct a as [|i].
    + rewrite (step_Mount _ Hp). simpl.
      exists (ns ++ [ID_GENERATOR (run acts) + 1]). repeat split.
      * rewrite map_app, Hmap. reflexivity.
      * apply NoDup_app; [exact Hnd | repeat constructor; intros [] | ].
        intros n Hin [<- | []].
        rewrite Forall_forall in Hall. specialize (Hall _ Hin). lia.
      * apply Forall_app. split.
        -- eapply Forall_impl; [|exact Hall]. simpl. intros; lia.
        -- repeat constructor; lia.
      * rewrite length_app, Hlen. reflexivity.
    + destruct (nth_error (instances (run acts)) i) as [held|] eqn:Hi.
      * rewrite (step_Rerender _ _ _ Hp Hi). simpl.
        exists ns. repeat split; try assumption.
        -- eapply Forall_impl; [|exact Hall]. simpl. intros; lia.
        -- lia.
      * simpl. rewrite Hi. exists ns. repeat split; try assumption. lia.
Qed.

Lemma NoDup_map_toString (ns : list N) : NoDup ns -> NoDup (map toString ns).
Proof.
  induction 1 as [|n ns Hnotin Hnd IH]; simpl; constructor; [|exact IH].
  intros Hin. apply in_map_iff in Hin. destruct Hin as (m & Heq & Hm).
  apply toString_inj in Heq. now subst m.
Qed.

(** C10, as the code has it.  The counter is pre-incremented by every render
    of every instance, not only by mounts; an instance keeps as componentId
    the decimal string of the counter value of its first render.  As long as
    the counter has not reached 2^53, the componentIds of all instances
    mounted so far are pairwise distinct. *)
Theorem C10_componentIds_distinct (acts : list Action) :
  ID_GENERATOR (run acts) < 2 ^ 53 ->
  NoDup (instances (run acts))
  /\ length (instances (run acts)) = mounts acts
  /\ Forall (fun cid => exists n, 1 <= n <= ID_GENERATOR (run acts)
                                  /\ cid = toString n)
            (instances (run acts))
  /\ run (acts ++ [Mount])
     = mkProcess (ID_GENERATOR (run acts) + 1)
                 (instances (run acts)
                  ++ [toString (ID_GENERATOR (run acts) + 1)])
  /\ (forall i, (i < length (instances (run acts)))%nat ->
        run (acts ++ [Rerender i])
        = mkProcess (ID_GENERATOR (run acts) + 1) (instances (run acts))).
Proof.
  intros Hlt.
  destruct (run_invariant acts Hlt) as (ns & Hmap & Hnd & Hall & Hlen).
  split. { rewrite Hmap. now apply NoDup_map_toString. }
  split. { now rewrite Hmap, length_map. }
  split.
  { rewrite Hmap. apply Forall_map.
    eapply Forall_impl; [|exact Hall]. simpl. intros n Hn. now exists n. }
  split. { rewrite run_snoc. now apply step_Mount. }
  intros i Hi. rewrite run_snoc.
  destruct (nth_error (instances (run acts)) i) as [held|] eqn:Hnth.
  - now apply (step_Rerender _ _ held).
  - apply nth_error_None in Hnth. lia.
Qed.

End ComponentIdentity.

Section BusRoundTrip.

Context {E : Externals}.

(** The reducer behind the bus lives in [CameraContextProvider/camera-reducer],
    which is not among the sources.  All that is used of it here is that the
    state it produces for a NEW_POSITION action carries the action's
    componentId as setByComponentId. *)
Variable cameraReducer : option CameraState.t -> CameraAction -> CameraState.t.
Hypothesis cameraReducer_stamps :
  forall st payload,
    CameraState.setByComponentId (cameraReducer st (NEW_POSITION payload))
    = Some (CameraActionPayload.componentId payload).

(** An instance that published a camera change and gets the resulting state
    back does not apply it. *)
Lemma own_publication_not_reapplied
  (componentId : string) (props : Props.t) (st : option CameraState.t)
  (position : Vector3.t) (quaternion : Quaternion.t) (zoom : option number)
  (w : World) :
  let published :=
    cameraReducer st
      (NEW_POSITION
         (CameraActionPayload.make componentId position quaternion zoom)) in
  cameraEffect componentId props (mkHooks None (Some published)) w
  = Returned tt
      (log [SetProps (AllPropsWith_currentCameraState props published)] w).
Proof.
  intros published.
  rewrite (cameraEffect_run componentId props (mkHooks None (Some published))
             published w eq_refl).
  rewrite (camera_applies_own componentId published); [reflexivity|].
  unfold published. now rewrite cameraReducer_stamps.
Qed.

End BusRoundTrip.

(* ------------------------------------------------------------------ *)
(** * Concrete runs *)

(** The calls of a mount with a pending raster request, outside any context
    provider and without a document. *)
Example mount_demo :
  let request := Demo.with_imageRequest (ImageRequest.make (Some "png")) Demo.props0 in
  trace (world_of (mount "1" request (mkHooks None None) Demo.world0))
  = [NewScene None None None; Subscribe; EnableDebug None;
     ConsoleWarn
       "no data passed ( or missing name /content ), scene will not be updated"
       None;
     ToggleVisibility None; UpdateInsetSettings None None None;
     ResizeRendererToDisplaySize; SetPixelRatio (Finite 8); RenderScene;
     ToDataURL "image/png";
     SetProps (ImageData "data:image/png;base64,iVBORw0KGgo=" 1700000000000);
     SetTimeout (restorePixelRatio (Finite 2));
     ConsoleLog "new props"].
Proof. reflexivity. Qed.

(** An unknown filetype in the request aborts the commit: the effects after
    the image request do not run, and the instance is unmounted. *)
Example mount_unknown_filetype_demo :
  let request := Demo.with_imageRequest (ImageRequest.make (Some "gltf")) Demo.props0 in
  let w1 := world_of (mount "1" request (mkHooks None None) Demo.world0) in
  threw (mount "1" request (mkHooks None None) Demo.world0)
  = Some "Unknown filetype."
  /\ trace w1
     = [NewScene None None None; Subscribe; EnableDebug None;
        ConsoleWarn
          "no data passed ( or missing name /content ), scene will not be updated"
          None;
        ToggleVisibility None; UpdateInsetSettings None None None;
        ResizeRendererToDisplaySize; Unsubscribe; OnDestroy]
  /\ pixelRatio w1 = Finite 2
  /\ subscribed w1 = false
  /\ destroyed w1 = true.
Proof. repeat split. Qed.

(** Identities handed out over three mounts with renders in between. *)
Example identity_demo :
  Identity.run [Identity.Mount; Identity.Rerender 0; Identity.Mount;
                Identity.Rerender 5; Identity.Mount]
  = Identity.mkProcess 4 ["1"; "3"; "4"].
Proof. reflexivity. Qed.

(** C2 at a concrete input: an SVG export is pending when the instance is
    torn down; its callback still reaches the owner's setProps. *)
Lemma C2_teardown_keeps_pending_callbacks_witness :
  let w1 := world_of (setPngData Demo.world0_svg) in
  pending w1 = [svgImageData "data:image/png;base64,iVBORw0KGgo="]
  /\ new_events (hostRunsCallback 0) (world_of (unmount w1))
     = [SetProps (ImageData "data:image/png;base64,iVBORw0KGgo=" 1700000000000)].
Proof.
  intros w1. split; [reflexivity|].
  exact (proj2 (proj2 (proj2 (proj2 (proj2
           (@C2_teardown_keeps_pending_callbacks Demo.externals w1)))))
           0%nat (svgImageData "data:image/png;base64,iVBORw0KGgo=") eq_refl).
Defined.

(** C2 fails as stated: a raster export is requested, the instance is torn
    down before the deferred restore step has run, and the step then runs on
    the destroyed scene, setting the pixel ratio and rendering. *)
Lemma C2_counterexample :
  let request := Demo.with_imageRequest (ImageRequest.make (Some "png")) Demo.props0 in
  let w1 := world_of (mount "1" request (mkHooks None None) Demo.world0) in
  let w2 := world_of (unmount w1) in
  subscribed w1 = true
  /\ pending w1 = [restorePixelRatio (Finite 2)]
  /\ new_events unmount w1 = [Unsubscribe; OnDestroy]
  /\ subscribed w2 = false
  /\ destroyed w2 = true
  /\ pending w2 = [restorePixelRatio (Finite 2)]
  /\ new_events (hostRunsCallback 0) w2 = [SetPixelRatio (Finite 2); RenderScene]
  /\ new_events (hostRunsCallback 0) w2 <> [].
Proof.
  repeat split; try reflexivity. discriminate.
Qed.

(** C3 at a concrete input: a document with a name and contents is built
    and the visibility map re-applied. *)
Lemma C3_falsy_document_skips_rebuild_witness :
  let sphere :=
    mkSceneJsonObject (Some "a") None (Some SPHERES) (Some true) None
      (Some (Finite 1)) None None (Some [(Finite 0, Finite 0, Finite 0)])
      None None None None None None None None in
  let d := group (Some "root") (Some [sphere]) in
  let props := Demo.with_data (Some d) Demo.props0 in
  dataEffect props Demo.world0
  = Returned tt
      (@set_scene Demo.externals (Demo.mkGraph (Some d) None None)
                 (log [AddToScene d true; ToggleVisibility None] Demo.world0)).
Proof.
  intros sphere d props.
  apply (proj1 (proj2 (@C3_falsy_document_skips_rebuild Demo.externals props
                         Demo.world0))
           d "root" [sphere] eq_refl eq_refl);
    [discriminate | reflexivity].
Defined.

(** C3 fails as stated: the document below has both required fields, its
    name being the empty string, and the rebuild is skipped with a warning. *)
Lemma C3_counterexample :
  let d := group (Some "") (Some []) in
  let props := Demo.with_data (Some d) Demo.props0 in
  name d = Some "" /\ contents d = Some []
  /\ dataEffect props Demo.world0
     = Returned tt
         (log [ConsoleWarn
                 "no data passed ( or missing name /content ), scene will not be updated"
                 (Some d)] Demo.world0)
  /\ ~ In (AddToScene d true) (new_events (dataEffect props) Demo.world0).
Proof.
  repeat split. intros [H | []]. discriminate H.
Qed.







(** C7 at a concrete input: a custom state with a position and a zoom and
    no quaternion, set on instance "7" inside a camera context. *)
Lemma C7_customCameraState_applied_and_republished_witness :
  let custom :=
    CameraState.make None
      (Some (Vector3.make (Finite 1) (Finite 2) (Finite 3)))
      (Some (Finite 2)) None None in
  let props := Demo.with_customCameraState (Some custom) Demo.props0 in
  let h := mkHooks (Some (CameraContext.make None true)) None in
  new_events (customCameraEffect "7" props h) Demo.world0
  = [UpdateCamera (Vector3.make (Finite 1) (Finite 2) (Finite 3))
                  (Some (Quaternion.make (Finite 0) (Finite 0) (Finite 0) (Finite 1)))
                  (Some (Finite 2));
     CameraDispatch ContextDispatch
       (NEW_POSITION
          (CameraActionPayload.make "7"
             (Vector3.make (Finite 1) (Finite 2) (Finite 3))
             (Quaternion.make (Finite 0) (Finite 0) (Finite 0) (Finite 1))
             (Some (Finite 2))));
     ConsoleLog "new props"].
Proof.
  intros custom props h.
  pose proof (@C7_customCameraState_applied_and_republished Demo.externals "7"
                props h custom Demo.world0 eq_refl) as H.
  cbv zeta in H. destruct H as (Hrun & _).
  unfold new_events. rewrite Hrun. reflexivity.
Defined.

(** C7 fails as stated: the instance is rendered under a camera context
    whose value carries no dispatch function.  The custom state is applied
    to the camera and is not published. *)
Lemma C7_counterexample :
  let custom :=
    CameraState.make None
      (Some (Vector3.make (Finite 1) (Finite 2) (Finite 3)))
      (Some (Finite 2)) None None in
  let props := Demo.with_customCameraState (Some custom) Demo.props0 in
  let h := mkHooks (Some (CameraContext.make None false)) None in
  cameraDispatch h = None
  /\ new_events (update "7" props h only_customCameraState) Demo.world0
     = [UpdateCamera (Vector3.make (Finite 1) (Finite 2) (Finite 3))
                     (Some (Quaternion.make (Finite 0) (Finite 0) (Finite 0)
                                            (Finite 1)))
                     (Some (Finite 2));
        ConsoleLog "new props"]
  /\ (forall bus action,
        ~ In (CameraDispatch bus action)
             (new_events (update "7" props h only_customCameraState) Demo.world0)).
Proof.
  repeat split. intros bus action [H | [H | []]]; discriminate H.
Qed.

(** C8 at a concrete input: the slider at a third of its range.  The time
    forwarded is the double nearest to 0.33. *)
Lemma C8_slider_forwards_normalized_time_witness :
  number_between 0 100 (Finite 33)
  /\ div100 (Finite 33) = Finite (5944751508129055 # 18014398509481984)
  /\ number_between (33 / 100 - (1 # 9007199254740992))
                    (33 / 100 + (1 # 9007199254740992)) (div100 (Finite 33)).
Proof.
  assert (H : number_between 0 100 (Finite 33)).
  { simpl. split; unfold Qle; simpl; lia. }
  split; [exact H|]. split; [vm_compute; reflexivity|].
  exact (proj1 (proj2 (proj2 (proj2
           (@C8_slider_forwards_normalized_time Demo.externals
              Demo.props0 (Finite 33) Demo.world0))))
           33%Q eq_refl H).
Defined.

(** C10 at a concrete input: two instances, the first rendering twice. *)
Lemma C10_componentIds_distinct_witness :
  NoDup (Identity.instances
           (Identity.run [Identity.Mount; Identity.Rerender 0; Identity.Mount])).
Proof.
  exact (proj1 (C10_componentIds_distinct
                  [Identity.Mount; Identity.Rerender 0; Identity.Mount] eq_refl)).
Defined.

(** C10 fails as stated: the first instance renders a second time before the
    second one mounts; the counter has then moved three times for two mounts
    and the second instance is "3", not "2". *)
Lemma C10_counterexample :
  let acts := [Identity.Mount; Identity.Rerender 0; Identity.Mount] in
  Identity.mounts acts = 2%nat
  /\ Identity.ID_GENERATOR (Identity.run acts) = 3%N
  /\ Identity.instances (Identity.run acts) = ["1"; "3"]
  /\ Identity.ID_GENERATOR (Identity.run acts) <> N.of_nat (Identity.mounts acts)
  /\ nth_error (Identity.instances (Identity.run acts)) 1 <> Some (Identity.toString 2).
Proof.
  repeat split; try reflexivity; vm_compute; discriminate.
Qed.

(* ------------------------------------------------------------------ *)
(** * Further properties of the scene binding *)

Section ExportRequests.

Context {E : Externals}.


Lemma unmount_world (w : World) :
  world_of (unmount w)
  = set_destroyed true (set_subscribed false (log [Unsubscribe; OnDestroy] w)).
Proof.
  destruct w. run_js. same_world.
Qed.


End ExportRequests.

Section OverlappingExports.

Context {E : Externals}.

Lemma nth_error_at_length (q r : list Callback) (cb : Callback) :
  nth_error (q ++ cb :: r) (length q) = Some cb.
Proof.
  rewrite nth_error_app2 by lia. now rewrite Nat.sub_diag.
Qed.

Lemma without_at_length (q r : list Callback) (cb : Callback) :
  without (length q) (q ++ cb :: r) = q ++ r.
Proof.
  unfold without. induction q as [|a q IH]; [reflexivity|].
  simpl. f_equal. exact IH.
Qed.

(** Running the callback that sits right after the first [length q] entries
    of the queue. *)
Lemma hostRunsCallback_at (q r : list Callback) (cb : Callback) (w : World) :
  pending w = q ++ cb :: r ->
  hostRunsCallback (length q) w = runCallback cb (set_pending (q ++ r) w).
Proof.
  intros Hp.
  rewrite (hostRunsCallback_run (length q) cb w)
    by (rewrite Hp; apply nth_error_at_length).
  now rewrite Hp, without_at_length.
Qed.

(** X3.  Two raster exports on the WebGL renderer that both start before the
    first one's restore step has run: the second reads 8 as the ratio to
    restore.  When the two restore steps then run in the order they were
    queued, the renderer is left at pixel ratio 8 and the surface is drawn
    at 8; only if they run in the opposite order does the renderer end at
    the ratio it had before the first export. *)
Theorem X3_overlapping_png_exports (w : World) :
  renderer w = WebGLRenderer ->
  let n := length (pending w) in
  let w2 := world_of (setPngData (world_of (setPngData w))) in
  let fifo := world_of (hostRunsCallback n (world_of (hostRunsCallback n w2))) in
  let lifo := world_of (hostRunsCallback n (world_of (hostRunsCallback (S n) w2))) in
  pending w2
  = pending w ++ [restorePixelRatio (pixelRatio w); restorePixelRatio (Finite 8)]
  /\ pixelRatio fifo = Finite 8
  /\ canvas fifo = Some (scene w, camera w, Finite 8)
  /\ pending fifo = pending w
  /\ pixelRatio lifo = pixelRatio w
  /\ canvas lifo = Some (scene w, camera w, pixelRatio w)
  /\ pending lifo = pending w.
Proof.
  intros Hr n w2 fifo lifo.
  destruct w as [r pr sc cam cv t sub des pend tr]. simpl in Hr. subst r.
  assert (H2 : pending w2
               = pend ++ [restorePixelRatio pr; restorePixelRatio (Finite 8)]).
  { unfold w2. cbn. now rewrite <- app_assoc. }
  split; [exact H2|].
  (* in queue order *)
  assert (Hf1 : hostRunsCallback n w2
                = runCallback (restorePixelRatio pr)
                    (set_pending (pend ++ [restorePixelRatio (Finite 8)]) w2)).
  { apply (hostRunsCallback_at pend [restorePixelRatio (Finite 8)]). exact H2. }
  assert (Hf2 : forall w', pending w' = pend ++ [restorePixelRatio (Finite 8)] ->
                  hostRunsCallback n w'
                  = runCallback (restorePixelRatio (Finite 8))
                                (set_pending (pend ++ []) w')).
  { intros w' Hw'. now apply (hostRunsCallback_at pend []). }
  (* in the opposite order *)
  assert (Hl1 : hostRunsCallback (S n) w2
                = runCallback (restorePixelRatio (Finite 8))
                    (set_pending ((pend ++ [restorePixelRatio pr]) ++ []) w2)).
  { replace (S n) with (length (pend ++ [restorePixelRatio pr]))
      by (rewrite length_app; simpl; unfold n; simpl; lia).
    apply hostRunsCallback_at. rewrite H2. now rewrite <- app_assoc. }
  assert (Hl2 : forall w', pending w' = pend ++ [restorePixelRatio pr] ->
                  hostRunsCallback n w'
                  = runCallback (restorePixelRatio pr)
                                (set_pending (pend ++ []) w')).
  { intros w' Hw'. now apply (hostRunsCallback_at pend []). }
  unfold fifo, lifo.
  rewrite Hf1, Hl1.
  rewrite Hf2 by (cbn; reflexivity).
  rewrite Hl2 by (cbn; now rewrite app_nil_r).
  unfold w2. cbn. rewrite !app_nil_r. repeat split.
Qed.

End OverlappingExports.

Section Commits.

Context {E : Externals}.

(** Reduce [update] on explicit change flags to the effects that run. *)
Ltac commit_flags :=
  cbv beta iota delta [effects when debug_changed data_changed
       toggleVisibility_changed inset_changed sceneSize_changed
       imageRequest_changed cameraPosition_changed customCameraState_changed
       animation_changed].

Lemma bind_ret_l (A B : Type) (a : A) (k : A -> M B) (w : World) :
  bind (ret a) k w = k a w.
Proof. reflexivity. Qed.

Lemma bind_run (A B : Type) (m : M A) (k : A -> M B) (a : A) (w w' : World) :
  m w = Returned a w' -> bind m k w = k a w'.
Proof. intros H. unfold bind. now rewrite H. Qed.


(** X5.  The effects of one commit run in source order.  When a well-formed
    document, a raster request and a custom camera state arrive together (on
    the WebGL renderer), the image handed to the owner shows the rebuilt,
    visibility-adjusted graph through the camera as it was before the custom
    state: the custom state is applied, and published to the bus in use if
    that has a dispatch function, only after the image was taken. *)
Theorem X5_commit_order_export_between_rebuild_and_camera
  (componentId : string) (props : Props.t) (h : Hooks) (w : World)
  (d : SceneJsonObject) (n : string) (c : list SceneJsonObject)
  (custom : CameraState.t) :
  Props.data props = Some d ->
  name d = Some n -> n <> "" -> contents d = Some c ->
  ImageRequest.filetype (Props.imageRequest props) = Some ExportType.png ->
  Props.customCameraState props = Some custom ->
  renderer w = WebGLRenderer ->
  let changed := mkChanged false true false false false true false true false in
  let graph' :=
    toggleVisibility_graph (Props.toggleVisibility props)
                           (addToScene_graph d (scene w)) in
  let position := custom_position custom in
  let quaternion := custom_quaternion custom in
  let zoom := CameraState.zoom custom in
  let action :=
    NEW_POSITION (CameraActionPayload.make componentId position quaternion zoom) in
  let publication :=
    match cameraContext h with
    | None => [CameraDispatch ReducerDispatch action]
    | Some ctx =>
        if CameraContext.dispatch ctx then [CameraDispatch ContextDispatch action]
        else []
    end in
  new_events (update componentId props h changed) w
  = [AddToScene d true;
     ToggleVisibility (Props.toggleVisibility props);
     SetPixelRatio (Finite 8); RenderScene; ToDataURL "image/png";
     SetProps (ImageData (canvas_toDataURL (Some (graph', camera w, Finite 8)))
                         (now w));
     SetTimeout (restorePixelRatio (pixelRatio w));
     UpdateCamera position (Some quaternion) zoom]
    ++ publication ++ [ConsoleLog "new props"]
  /\ threw (update componentId props h changed w) = None.
Proof.
  intros Hd Hn Hne Hc Hft Hcustom Hr changed graph' position quaternion zoom
    action publication.
  assert (Hnd : no_data (Props.data props) = false).
  { rewrite Hd. simpl. rewrite Hn, Hc. destruct n; [contradiction | reflexivity]. }
  assert (Hrun : effects componentId props h changed w
    = Returned tt
        (set_camera (updateCamera_camera position (Some quaternion) zoom (camera w))
           (set_pending (pending w ++ [restorePixelRatio (pixelRatio w)])
              (set_canvas (Some (graph', camera w, Finite 8))
                 (set_pixelRatio (Finite 8)
                    (set_scene graph'
                       (log ([AddToScene d true;
                              ToggleVisibility (Props.toggleVisibility props);
                              SetPixelRatio (Finite 8); RenderScene;
                              ToDataURL "image/png";
                              SetProps (ImageData
                                          (canvas_toDataURL
                                             (Some (graph', camera w, Finite 8)))
                                          (now w));
                              SetTimeout (restorePixelRatio (pixelRatio w));
                              UpdateCamera position (Some quaternion) zoom]
                             ++ publication ++ [ConsoleLog "new props"]) w))))))).
  { unfold changed. commit_flags. rewrite bind_ret_l.
    erewrite bind_run by (rewrite dataEffect_run, Hnd, Hd; reflexivity).
    rewrite !bind_ret_l.
    erewrite bind_run.
    2: { unfold imageRequestEffect. rewrite Hft. simpl string_truthy. cbv iota.
         change (requestImage ExportType.png) with setPngData.
         apply setPngData_webgl. destruct w; exact Hr. }
    rewrite bind_ret_l.
    erewrite bind_run
      by (apply (customCameraEffect_run componentId props h custom _ Hcustom)).
    fold position quaternion zoom action publication.
    unfold ret, graph'. clearbody publication. destruct w. run_js.
    same_world. }
  apply update_returned in Hrun.
  split.
  { apply new_events_log. rewrite Hrun. destruct w; reflexivity. }
  now rewrite Hrun.
Qed.

(** X6.  A commit in which both the document and the visibility map changed.
    With a falsy document the rebuild is skipped but the map is still applied,
    to the graph that was there; with a well-formed document the map is
    applied twice after the rebuild, once by each effect. *)
Theorem X6_document_and_visibility_commit
  (componentId : string) (props : Props.t) (h : Hooks) (w : World) :
  let changed := mkChanged false true true false false false false false false in
  let map := Props.toggleVisibility props in
  (no_data (Props.data props) = true ->
   new_events (update componentId props h changed) w
   = [ConsoleWarn
        "no data passed ( or missing name /content ), scene will not be updated"
        (Props.data props);
      ToggleVisibility map]
   /\ scene (world_of (update componentId props h changed w))
      = toggleVisibility_graph map (scene w))
  /\ (forall d, no_data (Props.data props) = false -> Props.data props = Some d ->
      new_events (update componentId props h changed) w
      = [AddToScene d true; ToggleVisibility map; ToggleVisibility map]
      /\ scene (world_of (update componentId props h changed w))
         = toggleVisibility_graph map
             (toggleVisibility_graph map (addToScene_graph d (scene w)))).
Proof.
  intros changed map. split.
  - intros Hnd.
    assert (Hrun : effects componentId props h changed w
      = Returned tt
          (set_scene (toggleVisibility_graph map (scene w))
             (log [ConsoleWarn
                     "no data passed ( or missing name /content ), scene will not be updated"
                     (Props.data props);
                   ToggleVisibility map] w))).
    { unfold changed. commit_flags. rewrite bind_ret_l.
      erewrite bind_run by (rewrite dataEffect_run, Hnd; reflexivity).
      erewrite bind_run by (unfold toggleVisibilityEffect; run_js; reflexivity).
      rewrite !bind_ret_l. unfold ret, map. destruct w. run_js. same_world. }
    apply update_returned in Hrun.
    split; [apply new_events_log|]; rewrite Hrun; destruct w; reflexivity.
  - intros d Hnd Hd.
    assert (Hrun : effects componentId props h changed w
      = Returned tt
          (set_scene
             (toggleVisibility_graph map
                (toggleVisibility_graph map (addToScene_graph d (scene w))))
             (log [AddToScene d true; ToggleVisibility map;
                   ToggleVisibility map] w))).
    { unfold changed. commit_flags. rewrite bind_ret_l.
      erewrite bind_run by (rewrite dataEffect_run, Hnd, Hd; reflexivity).
      erewrite bind_run by (unfold toggleVisibilityEffect; run_js; reflexivity).
      rewrite !bind_ret_l. unfold ret, map. destruct w. run_js. same_world. }
    apply update_returned in Hrun.
    split; [apply new_events_log|]; rewrite Hrun; destruct w; reflexivity.
Qed.

End Commits.

Section Frames.

Context {E : Externals}.

Lemma within_ret (A : Type) (P : Event -> bool) (t : bool) (a : A) :
  within P t (ret a).
Proof.
  intros w. exists []. rewrite app_nil_r. repeat split.
Qed.

Lemma within_gets (A : Type) (P : Event -> bool) (t : bool) (f : World -> A) :
  within P t (gets f).
Proof.
  intros w. exists []. rewrite app_nil_r. repeat split.
Qed.

Lemma within_throw (A : Type) (P : Event -> bool) (msg : string) :
  within P true (@throw_Error E A msg).
Proof.
  intros w. exists []. rewrite app_nil_r. repeat split. discriminate.
Qed.

(** The subscription that ends when its handler throws. *)
Lemma within_closing (A : Type) (P : Event -> bool) (t : bool) (m : M A) :
  within P t m ->
  within P t (fun w => match m w with
                       | Returned a w' => Returned a w'
                       | Thrown msg w' => Thrown msg (set_subscribed false w')
                       end).
Proof.
  intros H w. destruct (H w) as (es & Htr & HP & Ht).
  exists es. destruct (m w) as [a w'|msg w']; simpl in *.
  - repeat split; assumption.
  - split; [destruct w'; exact Htr|]. split; assumption.
Qed.

(** The unmount that follows an error. *)
Lemma within_unmountOnError (P : Event -> bool) (t : bool) (m : M unit) :
  (t = true -> P Unsubscribe = true /\ P OnDestroy = true) ->
  within P t m -> within P t (unmountOnError m).
Proof.
  intros Hlife H w. destruct (H w) as (es & Htr & HP & Ht).
  unfold unmountOnError.
  destruct (m w) as [a w'|msg w'] eqn:Hm; simpl in *.
  - exists es. repeat split; assumption.
  - destruct t; [|specialize (Ht eq_refl); discriminate Ht].
    destruct (Hlife eq_refl) as [Hu Hd].
    exists (es ++ [Unsubscribe; OnDestroy]). split.
    + destruct w' as [r pr sc cam cv n sub des pend tr]. simpl in *.
      rewrite Htr. now rewrite <- !app_assoc.
    + split; [|discriminate]. rewrite forallb_app, HP. simpl.
      now rewrite Hu, Hd.
Qed.

Lemma within_call (P : Event -> bool) (t : bool) (e : Event) :
  P e = true -> within P t (call e).
Proof.
  intros HP w. exists [e]. destruct w. simpl. rewrite HP. repeat split.
Qed.

Lemma within_modify (P : Event -> bool) (t : bool) (g : World -> World) :
  (forall w, trace (g w) = trace w) -> within P t (modify g).
Proof.
  intros Hg w. exists []. rewrite app_nil_r. simpl. rewrite Hg. repeat split.
Qed.

Lemma within_bind (A B : Type) (P : Event -> bool) (t : bool)
  (m : M A) (k : A -> M B) :
  within P t m -> (forall a, within P t (k a)) -> within P t (bind m k).
Proof.
  intros Hm Hk w. unfold bind.
  destruct (Hm w) as (es1 & H1 & F1 & T1).
  destruct (m w) as [a w' | msg w'] eqn:Hmw; simpl in H1.
  - destruct (Hk a w') as (es2 & H2 & F2 & T2).
    exists (es1 ++ es2). rewrite H2, H1, app_assoc, forallb_app, F1, F2.
    repeat split. exact T2.
  - exists es1. simpl. repeat split; assumption.
Qed.

Lemma within_when (P : Event -> bool) (t : bool) (b : bool) (m : M unit) :
  (b = true -> within P t m) -> within P t (when b m).
Proof.
  intros H. destruct b; simpl; [now apply H | apply within_ret].
Qed.

(** What [within] says about the calls of one run. *)
Lemma within_events (A : Type) (P : Event -> bool) (t : bool) (m : M A)
  (w : World) :
  within P t m ->
  forallb P (new_events m w) = true /\ (t = false -> threw (m w) = None).
Proof.
  intros H. destruct (H w) as (es & Htr & HP & Ht).
  now rewrite (new_events_log A m w es Htr).
Qed.

End Frames.

(** Take a computation apart along its binds and case distinctions; the
    calls left over are closed by [side]. *)
Ltac frame side :=
  repeat first
    [ apply within_ret
    | apply within_gets
    | apply within_throw
    | apply within_bind; [|intro]
    | apply within_modify; intros [? ? ? ? ? ? ? ? ? ?]; reflexivity
    | apply within_call; side
    | match goal with
      | |- within _ _ (match ?x with _ => _ end) => destruct x
      end ].

Section CommitFrames.

Context {E : Externals}.

Lemma setPngData_within : within export_call false setPngData.
Proof.
  intros w. destruct (renderer w) eqn:Hr.
  - rewrite (setPngData_webgl w Hr).
    eexists. split; [destruct w; reflexivity|]. repeat split.
  - rewrite (setPngData_svg w Hr).
    eexists. split; [destruct w; reflexivity|]. repeat split.
Qed.

Lemma setColladaData_within : within export_call true setColladaData.
Proof.
  intros w. rewrite setColladaData_run.
  destruct (btoa (ColladaExporter_parse (scene w)));
    (eexists; split; [destruct w; reflexivity|]; repeat split; discriminate).
Qed.

Lemma within_weaken (A : Type) (P Q : Event -> bool) (t : bool) (m : M A) :
  (forall e, P e = true -> Q e = true) ->
  within P false m -> within Q t m.
Proof.
  intros HPQ H w. destruct (H w) as (es & Htr & HP & Ht).
  exists es. split; [exact Htr|]. split; [|intros _; now apply Ht].
  rewrite forallb_forall in *. intros e He. apply HPQ. now apply HP.
Qed.

Lemma requestImage_within (filetype : string) :
  within export_call true (requestImage filetype).
Proof.
  unfold requestImage.
  destruct (String.eqb filetype ExportType.png);
    [| destruct (String.eqb filetype ExportType.dae)].
  - apply (within_weaken unit export_call export_call true); [auto|].
    apply setPngData_within.
  - apply setColladaData_within.
  - apply within_throw.
Qed.

(** X2.  Every call an export request makes is a call of the export pipeline
    (renderer, exporter, timer, setProps with image data): it never calls
    addToScene, toggleVisibility, updateCamera or the camera bus.  A request
    other than 'png', and any request on the SVG renderer, leaves the
    renderer's pixel ratio alone; a 'dae' request does not go through the
    renderer at all.  A completion callback, whenever it runs, only resets the
    pixel ratio, renders, calls setProps with image data or logs, and it does
    not throw. *)
Theorem X2_export_call_frame (filetype : string) (cb : Callback) (w : World) :
  forallb export_call (new_events (requestImage filetype) w) = true
  /\ forallb export_call (new_events (downloadEvent filetype) w) = true
  /\ forallb callback_call (new_events (runCallback cb) w) = true
  /\ threw (runCallback cb w) = None
  /\ (filetype <> ExportType.png ->
      pixelRatio (world_of (requestImage filetype w)) = pixelRatio w)
  /\ (renderer w = SVGRenderer ->
      pixelRatio (world_of (requestImage filetype w)) = pixelRatio w)
  /\ (filetype = ExportType.dae ->
      forallb (fun e => negb (renderer_call e))
              (new_events (requestImage filetype) w) = true).
Proof.
  split.
  { apply (within_events unit export_call true), requestImage_within. }
  split.
  { apply (within_events unit export_call true).
    unfold downloadEvent. apply within_bind; [apply within_gets|].
    intros [|]; [apply within_closing, requestImage_within | apply within_ret]. }
  split.
  { rewrite runCallback_events. destruct cb; reflexivity. }
  split.
  { destruct cb; reflexivity. }
  split.
  { intros Hp. unfold requestImage.
    apply String.eqb_neq in Hp. rewrite Hp.
    destruct (String.eqb filetype ExportType.dae); [|reflexivity].
    apply (setColladaData_keeps_viewport w). }
  split.
  { intros Hr. unfold requestImage.
    destruct (String.eqb filetype ExportType.png).
    - rewrite (setPngData_svg w Hr). destruct w; reflexivity.
    - destruct (String.eqb filetype ExportType.dae); [|reflexivity].
      apply (setColladaData_keeps_viewport w). }
  intros ->.
  change (requestImage ExportType.dae) with setColladaData.
  unfold new_events. rewrite setColladaData_run.
  destruct (btoa (ColladaExporter_parse (scene w)));
    destruct w; simpl; rewrite skipn_length_app; reflexivity.
Qed.

Lemma orb_intro_l (a b : bool) : a = true -> a || b = true.
Proof. now intros ->. Qed.

Lemma orb_intro_r (a b : bool) : b = true -> a || b = true.
Proof. intros ->. apply orb_true_r. Qed.

Lemma export_call_is_effect_call (ch : Changed) (e : Event) :
  imageRequest_changed ch = true -> export_call e = true ->
  effect_call ch e = true.
Proof.
  intros Hch He. unfold effect_call.
  destruct e as [| | | | | | | | | | | | | | | | | [] | | | |];
    simpl in *; try discriminate; now rewrite Hch.
Qed.

(** The calls of the effects of a commit. *)
Lemma effects_within
  (componentId : string) (props : Props.t) (h : Hooks) (ch : Changed) :
  within (effect_call ch) (imageRequest_changed ch)
         (effects componentId props h ch).
Proof.
  unfold effects.
  repeat (apply within_bind; [|intro]); apply within_when; intros Hch.
  - unfold debugEffect.
    frame ltac:(unfold effect_call; simpl; rewrite andb_true_r; exact Hch).
  - unfold dataEffect, Scene_addToScene, Scene_toggleVisibility.
    frame ltac:(unfold effect_call; simpl; rewrite andb_true_r;
                first [exact Hch | now apply orb_intro_l]).
  - unfold toggleVisibilityEffect, Scene_toggleVisibility.
    frame ltac:(unfold effect_call; simpl; rewrite andb_true_r;
                now apply orb_intro_r).
  - unfold insetEffect.
    frame ltac:(unfold effect_call; simpl; rewrite andb_true_r; exact Hch).
  - unfold resizeEffect.
    frame ltac:(unfold effect_call; simpl; rewrite andb_true_r; exact Hch).
  - rewrite Hch. unfold imageRequestEffect.
    destruct (ImageRequest.filetype (Props.imageRequest props)) as [f|];
      [|apply within_ret].
    destruct (string_truthy f); [|apply within_ret].
    intros w'. destruct (requestImage_within f w') as (es & Htr & HP & _).
    exists es. split; [exact Htr|]. split; [|discriminate].
    rewrite forallb_forall in *. intros e He.
    apply export_call_is_effect_call; [exact Hch | now apply HP].
  - unfold cameraEffect, props_setProps, Scene_updateCamera.
    frame ltac:(unfold effect_call; simpl; rewrite andb_true_r;
                first [exact Hch | now apply orb_intro_l]).
  - unfold customCameraEffect, Scene_updateCamera.
    frame ltac:(unfold effect_call; simpl; rewrite andb_true_r;
                first [exact Hch | now apply orb_intro_r]).
  - unfold animationEffect.
    frame ltac:(unfold effect_call; simpl; rewrite andb_true_r; exact Hch).
Qed.

Lemma effect_call_origin (ch : Changed) (e : Event) :
  effect_call ch e = true -> call_origin ch e = true.
Proof.
  unfold effect_call. intros H. now apply andb_true_iff in H.
Qed.

Lemma effect_call_no_lifecycle (ch : Changed) (es : list Event) :
  forallb (effect_call ch) es = true ->
  forallb (fun e => negb (lifecycle_call e)) es = true.
Proof.
  rewrite !forallb_forall. intros H e He. specialize (H e He).
  unfold effect_call in H. now apply andb_true_iff in H.
Qed.

Lemma update_within
  (componentId : string) (props : Props.t) (h : Hooks) (ch : Changed) :
  within (call_origin ch) (imageRequest_changed ch)
         (update componentId props h ch).
Proof.
  unfold update. apply within_unmountOnError.
  - intros Hch. simpl. now rewrite Hch.
  - intros w.
    destruct (effects_within componentId props h ch w) as (es & Htr & HP & Ht).
    exists es. split; [exact Htr|]. split; [|exact Ht].
    rewrite forallb_forall in *. intros e He.
    apply effect_call_origin. now apply HP.
Qed.

(** The two ways a commit ends: its effects return, and their calls are all
    it did; or one of them throws, and the instance is unmounted. *)
Lemma update_outcome
  (componentId : string) (props : Props.t) (h : Hooks) (ch : Changed)
  (w : World) :
  exists body,
    forallb (effect_call ch) body = true
    /\ ((threw (update componentId props h ch w) = None
         /\ new_events (update componentId props h ch) w = body)
        \/ (threw (update componentId props h ch w) <> None
            /\ imageRequest_changed ch = true
            /\ new_events (update componentId props h ch) w
               = body ++ [Unsubscribe; OnDestroy]
            /\ subscribed (world_of (update componentId props h ch w)) = false
            /\ destroyed (world_of (update componentId props h ch w)) = true)).
Proof.
  destruct (effects_within componentId props h ch w) as (body & Htr & HP & Ht).
  exists body. split; [exact HP|].
  destruct (effects componentId props h ch w) as [[] w'|msg w'] eqn:Hrun.
  - left. rewrite (update_returned componentId props h ch w w' Hrun).
    split; [reflexivity|]. apply new_events_log.
    rewrite (update_returned componentId props h ch w w' Hrun). exact Htr.
  - right. rewrite (update_thrown componentId props h ch w w' msg Hrun).
    rewrite unmount_world. simpl in Htr.
    split; [discriminate|]. split.
    { destruct (imageRequest_changed ch); [reflexivity|].
      specialize (Ht eq_refl). discriminate Ht. }
    split.
    + apply new_events_log.
      rewrite (update_thrown componentId props h ch w w' msg Hrun).
      rewrite unmount_world.
      destruct w' as [r pr sc cam cv n sub des pend tr]. simpl in *.
      rewrite Htr. now rewrite <- !app_assoc.
    + destruct w'; split; reflexivity.
Qed.

(** X7.  Every call a commit makes is owed to a dependency that changed in it:
    addToScene and the warning come only from a document change,
    toggleVisibility only from a document or visibility-map change,
    the export calls only from an image request, updateCamera only from a
    camera-bus or custom-camera change, a dispatch to the camera bus only
    from a custom-camera change, and so on.  A commit can throw only if the
    image request changed in it.  A commit that does not throw makes no life
    cycle call: it does not construct or destroy the Scene, subscribe or
    unsubscribe.  A commit that throws ends with the unmount of the
    instance: its last two calls are unsubscribe and onDestroy, and these are
    its only life cycle calls.  No commit calls updateTime. *)
Theorem X7_commit_calls_have_an_origin
  (componentId : string) (props : Props.t) (h : Hooks) (ch : Changed)
  (w : World) :
  let es := new_events (update componentId props h ch) w in
  let w' := world_of (update componentId props h ch w) in
  forallb (call_origin ch) es = true
  /\ (imageRequest_changed ch = false ->
      threw (update componentId props h ch w) = None)
  /\ (threw (update componentId props h ch w) = None ->
      forallb (fun e => negb (lifecycle_call e)) es = true)
  /\ (threw (update componentId props h ch w) <> None ->
      subscribed w' = false /\ destroyed w' = true
      /\ exists body,
           es = body ++ [Unsubscribe; OnDestroy]
           /\ forallb (fun e => negb (lifecycle_call e)) body = true)
  /\ (forall t, ~ In (UpdateTime t) es).
Proof.
  intros es w'.
  pose proof (within_events unit (call_origin ch) (imageRequest_changed ch)
                (update componentId props h ch) w
                (update_within componentId props h ch)) as [Horigin Hthrow].
  fold es in Horigin.
  split; [exact Horigin|]. split; [exact Hthrow|].
  destruct (update_outcome componentId props h ch w)
    as (body & Hbody & [[Hnone Hes] | (Hsome & _ & Hes & Hsub & Hdes)]);
    fold es in Hes.
  - split; [intros _; rewrite Hes; now apply (effect_call_no_lifecycle ch)|].
    split; [intros Hc; now elim Hc|].
    intros t Hin. rewrite forallb_forall in Horigin.
    specialize (Horigin _ Hin). discriminate Horigin.
  - split; [intros Hc; now elim Hsome|].
    split.
    + intros _. split; [exact Hsub|]. split; [exact Hdes|].
      exists body. split; [exact Hes|].
      now apply (effect_call_no_lifecycle ch).
    + intros t Hin. rewrite forallb_forall in Horigin.
      specialize (Horigin _ Hin). discriminate Horigin.
Qed.

(** X8.  A mount constructs the Scene from the document and inset sizes of the
    props and subscribes to the download bus before it does anything else.
    If none of its effects throws, none of the calls that follow constructs
    or destroys a Scene, subscribes or unsubscribes.  If one throws (the
    image request of the first render), the instance is unmounted at once:
    the mount ends with unsubscribe and onDestroy, which are the only life
    cycle calls after the first two, and leaves the instance unsubscribed
    and its Scene destroyed. *)
Theorem X8_mount_constructs_and_subscribes_first
  (componentId : string) (props : Props.t) (h : Hooks) (w : World) :
  let w' := world_of (mount componentId props h w) in
  exists body,
    forallb (fun e => negb (lifecycle_call e)) body = true
    /\ new_events (mount componentId props h) w
       = NewScene (Props.data props) (Props.inletSize props)
                  (Props.inletPadding props)
         :: Subscribe
         :: body ++ match threw (mount componentId props h w) with
                    | None => []
                    | Some _ => [Unsubscribe; OnDestroy]
                    end
    /\ (threw (mount componentId props h w) <> None ->
        subscribed w' = false /\ destroyed w' = true).
Proof.
  intros w'.
  set (all := mkChanged true true true true true true true true true).
  set (w1 := set_subscribed true
               (log [NewScene (Props.data props) (Props.inletSize props)
                              (Props.inletPadding props); Subscribe] w)).
  assert (Hmount : mount componentId props h w
                   = update componentId props h all w1).
  { unfold mount.
    apply (bind_run unit unit (mountEffect props)
             (fun _ => update componentId props h all) tt w w1).
    unfold w1, mountEffect. destruct w. run_js. same_world. }
  assert (Htrace : trace w1
                   = trace w ++ [NewScene (Props.data props) (Props.inletSize props)
                                          (Props.inletPadding props); Subscribe]).
  { unfold w1. destruct w; reflexivity. }
  unfold w'. rewrite Hmount.
  destruct (update_outcome componentId props h all w1)
    as (body & Hbody & [[Hnone Hes] | (Hsome & _ & Hes & Hsub & Hdes)]);
    exists body; (split; [now apply (effect_call_no_lifecycle all)|]).
  - rewrite Hnone. split; [|intros Hc; now elim Hc].
    unfold new_events in *. rewrite Hmount.
    destruct (update_within componentId props h all w1) as (es & Htr & _).
    rewrite Htr in *. rewrite skipn_length_app in Hes. subst es.
    rewrite Htrace, <- app_assoc, skipn_length_app, app_nil_r. reflexivity.
  - split; [|intros _; now split].
    destruct (threw (update componentId props h all w1)) as [msg|];
      [|now elim Hsome].
    unfold new_events in *. rewrite Hmount.
    destruct (update_within componentId props h all w1) as (es & Htr & _).
    rewrite Htr in *. rewrite skipn_length_app in Hes. subst es.
    rewrite Htrace, <- app_assoc, skipn_length_app. reflexivity.
Qed.

End CommitFrames.

Section IdentityStability.

Import Identity.

Lemma nth_error_set_nth_other (A : Type) (l : list A) (i j : nat) (a : A) :
  i <> j -> nth_error (set_nth j a l) i = nth_error l i.
Proof.
  revert i j. induction l as [|x l IH]; intros [|i] [|j] Hne; simpl;
    try reflexivity; try (now elim Hne).
  apply IH. congruence.
Qed.

Lemma step_keeps_componentId (p : Process) (a : Action) (i : nat) (cid : string) :
  nth_error (instances p) i = Some cid ->
  nth_error (instances (step p a)) i = Some cid.
Proof.
  intros Hi. destruct a as [|j]; simpl.
  - rewrite nth_error_app1; [exact Hi|]. apply nth_error_Some. congruence.
  - destruct (nth_error (instances p) j) as [held|] eqn:Hj; [|exact Hi].
    simpl. unfold useRef. now rewrite (set_nth_same _ _ _ _ Hj).
Qed.

(** X9.  An instance keeps the componentId of its first render for good: no later
    render of it, and no mount or render of another instance, changes it.
    This holds for every value of the counter. *)
Theorem X9_componentId_is_stable
  (p : Process) (more : list Action) (i : nat) (cid : string) :
  nth_error (instances p) i = Some cid ->
  nth_error (instances (run_from p more)) i = Some cid.
Proof.
  revert p. induction more as [|a more IH]; intros p Hi; [exact Hi|].
  simpl. apply IH. now apply step_keeps_componentId.
Qed.

End IdentityStability.

Section MaterialsInputProperties.

Import MaterialsInput.

Lemma run_from_app (props : Props) (s : State) (a b : list Action) :
  run_from props s (a ++ b)
  = (fst (run_from props (fst (run_from props s a)) b),
     snd (run_from props s a)
     ++ snd (run_from props (fst (run_from props s a)) b)).
Proof.
  revert s. induction a as [|x a IH]; intros s; simpl.
  - now destruct (run_from props s b).
  - destruct (step props s x) as [s1 c1]. rewrite IH.
    destruct (run_from props s1 a) as [s2 c2]. simpl.
    now rewrite app_assoc.
Qed.

Lemma step_keeps_hidden (props : Props) (s : State) (a : Action) :
  mode_is (periodicTableMode props) TOGGLE = false ->
  mode_is (periodicTableMode props) FOCUS = false ->
  showPeriodicTable s = false ->
  showPeriodicTable (fst (step props s a)) = false.
Proof.
  intros Ht Hf Hs.
  destruct a; simpl;
    unfold getOnFocusProp, getOnBlurProp, getOnKeyDownProp, handleSubmit;
    rewrite ?Ht, ?Hf, ?andb_false_r; simpl; try exact Hs.
  - destruct (negb (mode_is (periodicTableMode props) NONE)); exact Hs.
  - destruct (no_error s); simpl; [reflexivity | exact Hs].
  - destruct (no_error s); exact Hs.
Qed.

(** X10.  The periodic table can become visible only in the 'toggle' and 'focus'
    modes: with periodicTableMode 'none' or not given at all it is hidden
    initially and stays hidden whatever the user and the child input do. *)
Theorem X10_table_hidden_outside_toggle_and_focus
  (props : Props) (value : string) (acts : list Action) :
  periodicTableMode props <> Some TOGGLE ->
  periodicTableMode props <> Some FOCUS ->
  showPeriodicTable (fst (run props value acts)) = false.
Proof.
  intros Ht Hf.
  assert (Ht' : mode_is (periodicTableMode props) TOGGLE = false).
  { destruct (periodicTableMode props) as [[]|]; try reflexivity. now elim Ht. }
  assert (Hf' : mode_is (periodicTableMode props) FOCUS = false).
  { destruct (periodicTableMode props) as [[]|]; try reflexivity. now elim Hf. }
  unfold run.
  assert (H0 : showPeriodicTable (initialState props value) = false).
  { simpl. now rewrite Ht'. }
  revert H0. generalize (initialState props value).
  induction acts as [|a acts IH]; intros s Hs; simpl; [exact Hs|].
  pose proof (step_keeps_hidden props s a Ht' Hf' Hs) as H1.
  destruct (step props s a) as [s1 c1]. simpl in H1.
  specialize (IH s1 H1). now destruct (run_from props s1 acts).
Qed.

Lemma step_ignores_hide (mode : option PeriodicTableMode) (h1 h2 : option bool)
  (sp os : bool) (s : State) (a : Action) :
  step (mkProps mode h1 sp os) s a = step (mkProps mode h2 sp os) s a.
Proof.
  destruct a; reflexivity.
Qed.

(** X11.  hidePeriodicTable only sets the initial visibility in 'toggle' mode.  In
    every other mode it is ignored: two inputs that differ in nothing else
    behave the same on every sequence of actions.  In 'toggle' mode with
    hidePeriodicTable set, the first click on the toggle button shows the
    table. *)
Theorem X11_hidePeriodicTable_is_initial_only
  (mode : option PeriodicTableMode) (h1 h2 : option bool) (sp os : bool)
  (value : string) (acts : list Action) :
  (mode <> Some TOGGLE ->
   run (mkProps mode h1 sp os) value acts = run (mkProps mode h2 sp os) value acts)
  /\ showPeriodicTable
       (fst (run (mkProps (Some TOGGLE) (Some true) sp os) value
                 [ToggleButtonClick])) = true
  /\ (forall s, run_from (mkProps mode h1 sp os) s acts
                = run_from (mkProps mode h2 sp os) s acts).
Proof.
  assert (Hrun : forall s, run_from (mkProps mode h1 sp os) s acts
                           = run_from (mkProps mode h2 sp os) s acts).
  { induction acts as [|a acts IH]; intros s; simpl; [reflexivity|].
    rewrite (step_ignores_hide mode h1 h2 sp os s a).
    destruct (step (mkProps mode h2 sp os) s a) as [s1 c1]. now rewrite IH. }
  split; [|split; [reflexivity | exact Hrun]].
  intros Hm. unfold run.
  replace (initialState (mkProps mode h1 sp os) value)
    with (initialState (mkProps mode h2 sp os) value); [apply Hrun|].
  unfold initialState. simpl.
  destruct mode as [[]|]; try reflexivity. now elim Hm.
Qed.











(** X13.  In 'focus' mode, after any history: focusing the input shows the table;
    the Tab key hides it; a blur hides it unless the pointer went down on
    the table since the last blur, in which case the table stays as it is,
    the input is given focus again (at once if the related target is a
    'mat-element', otherwise in a timeout) and the flag is cleared. *)
Theorem X13_focus_mode_visibility
  (props : Props) (s : State) (relatedTarget : option string) :
  periodicTableMode props = Some FOCUS ->
  showPeriodicTable (fst (step props s InputFocus)) = true
  /\ showPeriodicTable (fst (step props s (InputKeyDown 9))) = false
  /\ (periodicTableClicked s = false ->
      showPeriodicTable (fst (step props s (InputBlur relatedTarget))) = false
      /\ snd (step props s (InputBlur relatedTarget)) = [])
  /\ (let clicked := fst (step props s TableMouseDown) in
      let blurred := step props clicked (InputBlur relatedTarget) in
      showPeriodicTable (fst blurred) = showPeriodicTable s
      /\ periodicTableClicked (fst blurred) = false
      /\ snd blurred
         = (if opt_truthy has_mat_element relatedTarget
            then [target_focus] else [setTimeout_target_focus])
      /\ showPeriodicTable
           (fst (step props (fst blurred) (InputBlur relatedTarget))) = false).
Proof.
  intros Hm. simpl.
  unfold getOnFocusProp, getOnKeyDownProp, getOnBlurProp. rewrite Hm. simpl.
  split; [reflexivity|]. split; [reflexivity|]. split.
  - intros ->. simpl. now split.
  - repeat split.
Qed.

End MaterialsInputProperties.

Section Stamping.

Context {E : Externals}.

Lemma within_impl (A : Type) (P Q : Event -> bool) (t : bool) (m : M A) :
  (forall e, P e = true -> Q e = true) -> within P t m -> within Q t m.
Proof.
  intros HPQ H w. destruct (H w) as (es & Htr & HP & Ht).
  exists es. split; [exact Htr|]. split; [|exact Ht].
  rewrite forallb_forall in *. intros e He. apply HPQ. now apply HP.
Qed.

Lemma dispatch_stamped (componentId : string) (h : Hooks) (payload_position : Vector3.t)
  (payload_quaternion : Quaternion.t) (payload_zoom : option number) :
  within (stamped componentId h) true
    (match cameraDispatch h with
     | Some bus =>
         call (CameraDispatch bus
                 (NEW_POSITION
                    (CameraActionPayload.make componentId payload_position
                                              payload_quaternion payload_zoom)))
     | None => ret tt
     end).
Proof.
  unfold cameraDispatch.
  destruct (cameraContext h) as [[st []]|] eqn:Hctx; cbn [CameraContext.dispatch];
    try apply within_ret;
    apply within_call; simpl; rewrite String.eqb_refl, Hctx; reflexivity.
Qed.

Lemma effects_stamped
  (componentId : string) (props : Props.t) (h : Hooks) (ch : Changed) :
  within (stamped componentId h) true (effects componentId props h ch).
Proof.
  unfold effects.
  repeat (apply within_bind; [|intro]); apply within_when; intros _.
  - unfold debugEffect. frame ltac:(reflexivity).
  - unfold dataEffect, Scene_addToScene, Scene_toggleVisibility.
    frame ltac:(reflexivity).
  - unfold toggleVisibilityEffect, Scene_toggleVisibility. frame ltac:(reflexivity).
  - unfold insetEffect. frame ltac:(reflexivity).
  - unfold resizeEffect. frame ltac:(reflexivity).
  - unfold imageRequestEffect.
    destruct (ImageRequest.filetype (Props.imageRequest props)) as [f|];
      [|apply within_ret].
    destruct (string_truthy f); [|apply within_ret].
    apply (within_impl unit export_call); [|apply requestImage_within].
    intros e He. destruct e; try reflexivity; discriminate He.
  - unfold cameraEffect, props_setProps, Scene_updateCamera. frame ltac:(reflexivity).
  - unfold customCameraEffect, Scene_updateCamera.
    apply within_bind; [|intro; apply within_call; reflexivity].
    destruct (Props.customCameraState props) as [custom|]; [|apply within_ret].
    apply within_bind; [frame ltac:(reflexivity)|intro].
    apply dispatch_stamped.
  - unfold animationEffect. frame ltac:(reflexivity).
Qed.

Lemma update_stamped
  (componentId : string) (props : Props.t) (h : Hooks) (ch : Changed) :
  within (stamped componentId h) true (update componentId props h ch).
Proof.
  unfold update. apply within_unmountOnError; [now split|].
  apply effects_stamped.
Qed.

(** X14.  Whatever an instance publishes to the camera bus carries its own
    componentId and goes to the context's dispatch function if the instance
    is rendered inside a camera context, to its own reducer otherwise: this
    holds for every commit, for the mount and for the unmount.  The dispatch
    function handed to the Scene publishes exactly one such action per
    camera change, and nothing if the context value has no dispatch
    function. *)
Theorem X14_every_dispatch_is_stamped
  (componentId : string) (props : Props.t) (h : Hooks) (ch : Changed)
  (position : Vector3.t) (quaternion : Quaternion.t) (zoom : number)
  (w : World) :
  forallb (stamped componentId h)
          (new_events (update componentId props h ch) w) = true
  /\ forallb (stamped componentId h)
             (new_events (mount componentId props h) w) = true
  /\ new_events (sceneDispatch componentId h position quaternion zoom) w
     = match cameraContext h with
       | None =>
           [CameraDispatch ReducerDispatch
              (NEW_POSITION
                 (CameraActionPayload.make componentId position quaternion
                                           (Some zoom)))]
       | Some ctx =>
           if CameraContext.dispatch ctx then
             [CameraDispatch ContextDispatch
                (NEW_POSITION
                   (CameraActionPayload.make componentId position quaternion
                                             (Some zoom)))]
           else []
       end
  /\ forallb (stamped componentId h)
             (new_events (sceneDispatch componentId h position quaternion zoom) w)
     = true
  /\ forallb (stamped componentId h) (new_events unmount w) = true.
Proof.
  split; [|split; [|split; [|split]]].
  - apply (within_events unit (stamped componentId h) true), update_stamped.
  - apply (within_events unit (stamped componentId h) true).
    unfold mount. apply within_bind; [|intro; apply update_stamped].
    unfold mountEffect, download_subscribe. frame ltac:(reflexivity).
  - apply new_events_log. unfold sceneDispatch, cameraDispatch.
    destruct (cameraContext h) as [[st []]|]; cbn [CameraContext.dispatch];
      destruct w; run_js; rewrite ?app_nil_r; reflexivity.
  - apply (within_events unit (stamped componentId h) true).
    unfold sceneDispatch. apply dispatch_stamped.
  - rewrite (new_events_log unit unmount w [Unsubscribe; OnDestroy]);
      [reflexivity|].
    rewrite unmount_run. destruct w; reflexivity.
Qed.

End Stamping.

Section TypeDropdown.

Import MaterialsInput.

(** X15.  The two-entry "elements or chemical system" dropdown is used exactly
    when the dropdown is asked for and the allowed input types are ELEMENTS
    and CHEMICAL_SYSTEM, in either order; its entries are then always listed
    chemical system first.  In every other case with the dropdown asked for
    and more than one allowed type, there is one entry per allowed type, in
    the order given, repeated types included; otherwise there is no entry. *)
Theorem X15_elements_or_chemsys_dropdown
  (dropdownValue elementsOnlyDropdownValue : MaterialsInputType -> string)
  (prop : option bool) (allowed : list MaterialsInputType) :
  (dropdownOnlyElementsOrChemSys prop allowed = true
   <-> prop = Some true
       /\ (allowed = [ELEMENTS; CHEMICAL_SYSTEM]
           \/ allowed = [CHEMICAL_SYSTEM; ELEMENTS]))
  /\ (dropdownOnlyElementsOrChemSys prop allowed = true ->
      typeDropdownOptions dropdownValue elementsOnlyDropdownValue prop allowed
      = [elementsOnlyDropdownValue CHEMICAL_SYSTEM;
         elementsOnlyDropdownValue ELEMENTS])
  /\ (dropdownOnlyElementsOrChemSys prop allowed = false ->
      prop = Some true -> (1 < length allowed)%nat ->
      typeDropdownOptions dropdownValue elementsOnlyDropdownValue prop allowed
      = map dropdownValue allowed)
  /\ (prop <> Some true \/ (length allowed <= 1)%nat ->
      typeDropdownOptions dropdownValue elementsOnlyDropdownValue prop allowed
      = []).
Proof.
  split; [|split; [|split]].
  - split.
    + unfold dropdownOnlyElementsOrChemSys, showTypeDropdown.
      destruct prop as [[]|]; simpl; try discriminate.
      destruct allowed as [|a [|b [|c l]]]; simpl; try discriminate.
      destruct a, b; simpl; try discriminate; intros _; split; auto.
    + intros [-> [-> | ->]]; reflexivity.
  - intros H. unfold typeDropdownOptions. now rewrite H.
  - intros H -> Hlen. unfold typeDropdownOptions, showTypeDropdown. rewrite H.
    simpl. apply Nat.ltb_lt in Hlen. now rewrite Hlen.
  - intros H. unfold typeDropdownOptions.
    assert (Hs : showTypeDropdown prop allowed = false).
    { unfold showTypeDropdown. destruct H as [H | H].
      - destruct prop as [[]|]; try reflexivity. now elim H.
      - apply Nat.ltb_ge in H. rewrite H. apply andb_false_r. }
    unfold dropdownOnlyElementsOrChemSys. rewrite Hs. reflexivity.
Qed.

End TypeDropdown.

(* ------------------------------------------------------------------ *)
(** * Concrete runs of the further properties *)


(** X2 at a concrete input: a Collada request on a WebGL scene at ratio 2. *)
Lemma X2_export_call_frame_witness :
  pixelRatio (world_of (requestImage ExportType.dae Demo.world0)) = Finite 2.
Proof.
  apply (proj1 (proj2 (proj2 (proj2 (proj2
           (@X2_export_call_frame Demo.externals ExportType.dae colladaDone
              Demo.world0)))))).
  discriminate.
Defined.

(** X3 at a concrete input: two raster requests on a scene at ratio 2. *)
Lemma X3_overlapping_png_exports_witness :
  let w2 := world_of (setPngData (world_of (setPngData Demo.world0))) in
  pixelRatio (world_of (hostRunsCallback 0 (world_of (hostRunsCallback 0 w2))))
  = Finite 8
  /\ pixelRatio (world_of (hostRunsCallback 0 (world_of (hostRunsCallback 1 w2))))
     = Finite 2.
Proof.
  pose proof (@X3_overlapping_png_exports Demo.externals Demo.world0 eq_refl) as H.
  cbv zeta in H. destruct H as (_ & Hfifo & _ & _ & Hlifo & _).
  split; [exact Hfifo | exact Hlifo].
Defined.


(** X5 at a concrete input: document "root", a 'png' request and a custom
    position arriving in one commit. *)
Lemma X5_commit_order_export_between_rebuild_and_camera_witness :
  let d := group (Some "root") (Some []) in
  let custom :=
    CameraState.make None (Some (Vector3.make (Finite 1) (Finite 2) (Finite 3)))
                     None None None in
  let props :=
    Demo.with_customCameraState (Some custom)
      (Demo.with_imageRequest (ImageRequest.make (Some "png"))
         (Demo.with_data (Some d) Demo.props0)) in
  threw (update "1" props (mkHooks None None)
                (mkChanged false true false false false true false true false)
                Demo.world0) = None.
Proof.
  intros d custom props.
  assert (Hne : "root" <> "") by discriminate.
  pose proof (@X5_commit_order_export_between_rebuild_and_camera Demo.externals
                "1" props (mkHooks None None) Demo.world0 d "root" [] custom
                eq_refl eq_refl Hne eq_refl eq_refl eq_refl eq_refl) as H.
  cbv zeta in H. exact (proj2 H).
Defined.

(** X6 at a concrete input: an absent document with a visibility map. *)
Lemma X6_document_and_visibility_commit_witness :
  let props :=
    Props.make None None None (Some [("a", false)]) ImageRequest.empty
               None None None None None None None in
  new_events (update "1" props (mkHooks None None)
                     (mkChanged false true true false false false false false false))
             Demo.world0
  = [ConsoleWarn
       "no data passed ( or missing name /content ), scene will not be updated"
       None;
     ToggleVisibility (Some [("a", false)])].
Proof.
  intros props.
  exact (proj1 (proj1 (@X6_document_and_visibility_commit Demo.externals "1"
                         props (mkHooks None None) Demo.world0) eq_refl)).
Defined.

(** X7 at a concrete input: a commit whose image request has a filetype
    without a handler ends with the instance unmounted. *)
Lemma X7_commit_calls_have_an_origin_witness :
  let request := Demo.with_imageRequest (ImageRequest.make (Some "gltf")) Demo.props0 in
  let w' := world_of (update "1" request (mkHooks None None) only_imageRequest
                             Demo.world0) in
  subscribed w' = false /\ destroyed w' = true.
Proof.
  intros request w'.
  pose proof (@X7_commit_calls_have_an_origin Demo.externals "1" request
                (mkHooks None None) only_imageRequest Demo.world0) as H.
  cbv zeta in H. destruct H as (_ & _ & _ & H & _).
  assert (Hthrow : threw (update "1" request (mkHooks None None)
                                 only_imageRequest Demo.world0) <> None)
    by (vm_compute; discriminate).
  destruct (H Hthrow) as (Hsub & Hdes & _).
  split; [exact Hsub | exact Hdes].
Defined.

(** X8 at a concrete input: a first render with a 'usdz' request. *)
Lemma X8_mount_constructs_and_subscribes_first_witness :
  let request := Demo.with_imageRequest (ImageRequest.make (Some "usdz")) Demo.props0 in
  let w' := world_of (mount "1" request (mkHooks None None) Demo.world0) in
  subscribed w' = false /\ destroyed w' = true.
Proof.
  intros request w'.
  pose proof (@X8_mount_constructs_and_subscribes_first Demo.externals "1"
                request (mkHooks None None) Demo.world0) as H.
  cbv zeta in H. destruct H as (body & _ & _ & H).
  apply H. vm_compute. discriminate.
Defined.

(** X9 at a concrete input: the first instance after a second mount and two
    more renders. *)
Lemma X9_componentId_is_stable_witness :
  nth_error
    (Identity.instances
       (Identity.run_from (Identity.run [Identity.Mount])
          [Identity.Mount; Identity.Rerender 0; Identity.Rerender 1]))
    0 = Some "1".
Proof.
  exact (X9_componentId_is_stable (Identity.run [Identity.Mount])
           [Identity.Mount; Identity.Rerender 0; Identity.Rerender 1]
           0 "1" eq_refl).
Defined.

(** X10 at a concrete input: no mode given, the user focuses, clicks where
    the toggle button would be and submits. *)
Lemma X10_table_hidden_outside_toggle_and_focus_witness :
  MaterialsInput.showPeriodicTable
    (fst (MaterialsInput.run
            (MaterialsInput.mkProps None None true true) "Fe"
            [MaterialsInput.InputFocus; MaterialsInput.ToggleButtonClick;
             MaterialsInput.Submit None])) = false.
Proof.
  apply X10_table_hidden_outside_toggle_and_focus; discriminate.
Defined.

(** X11 at a concrete input: 'focus' mode with and without hidePeriodicTable. *)
Lemma X11_hidePeriodicTable_is_initial_only_witness :
  MaterialsInput.run
    (MaterialsInput.mkProps (Some MaterialsInput.FOCUS) (Some true) false false)
    "" [MaterialsInput.InputFocus]
  = MaterialsInput.run
      (MaterialsInput.mkProps (Some MaterialsInput.FOCUS) None false false)
      "" [MaterialsInput.InputFocus].
Proof.
  apply (proj1 (X11_hidePeriodicTable_is_initial_only
                  (Some MaterialsInput.FOCUS) (Some true) None false false ""
                  [MaterialsInput.InputFocus])).
  discriminate.
Defined.


(** X13 at a concrete input: pointer down on an element button, then blur. *)
Lemma X13_focus_mode_visibility_witness :
  let props := MaterialsInput.mkProps (Some MaterialsInput.FOCUS) None false false in
  let shown := fst (MaterialsInput.step props
                      (MaterialsInput.initialState props "")
                      MaterialsInput.InputFocus) in
  let clicked := fst (MaterialsInput.step props shown MaterialsInput.TableMouseDown) in
  snd (MaterialsInput.step props clicked
         (MaterialsInput.InputBlur (Some "mat-element selected")))
  = [MaterialsInput.target_focus].
Proof.
  intros props shown clicked.
  pose proof (X13_focus_mode_visibility props shown (Some "mat-element selected")
                eq_refl) as H.
  destruct H as (_ & _ & _ & H). cbv zeta in H.
  destruct H as (_ & _ & H & _). exact H.
Defined.

(** X14 at a concrete input: a custom camera state on instance "7" inside a
    context provider. *)
Example stamped_demo :
  let custom :=
    CameraState.make None (Some (Vector3.make (Finite 1) (Finite 2) (Finite 3)))
                     None None None in
  let props := Demo.with_customCameraState (Some custom) Demo.props0 in
  filter (fun e => match e with CameraDispatch _ _ => true | _ => false end)
         (new_events (mount "7" props
                        (mkHooks (Some (CameraContext.make None true)) None))
                     Demo.world0)
  = [CameraDispatch ContextDispatch
       (NEW_POSITION
          (CameraActionPayload.make "7"
             (Vector3.make (Finite 1) (Finite 2) (Finite 3))
             (Quaternion.make (Finite 0) (Finite 0) (Finite 0) (Finite 1))
             None))].
Proof. reflexivity. Qed.

(** X15 at a concrete input: elements and chemical system, elements first. *)
Lemma X15_elements_or_chemsys_dropdown_witness :
  MaterialsInput.typeDropdownOptions
    (fun _ => "By elements") (fun t =>
       match t with
       | MaterialsInput.CHEMICAL_SYSTEM => "Only"
       | _ => "At least"
       end)
    (Some true) [MaterialsInput.ELEMENTS; MaterialsInput.CHEMICAL_SYSTEM]
  = ["Only"; "At least"].
Proof.
  exact (proj1 (proj2 (X15_elements_or_chemsys_dropdown
                         (fun _ => "By elements")
                         (fun t =>
                            match t with
                            | MaterialsInput.CHEMICAL_SYSTEM => "Only"
                            | _ => "At least"
                            end)
                         (Some true)
                         [MaterialsInput.ELEMENTS; MaterialsInput.CHEMICAL_SYSTEM]))
           eq_refl).
Defined.
